(** * Sensor node firmware (main.py): connectivity supervision and publish cadence

    A shallow embedding of [main.py], from the creation of the watchdog timer
    (line 121) to the end of the file, and of the functions [CalcUptime],
    [ReadTemperature], [watchdog_task] and [mqtt_publish].

    Modelling conventions.
    - The script talks to the outside through MicroPython modules ([socket],
      [time], [machine], [umqtt], [dht20]).  Every such call is recorded as an
      [event] in the history of the [World]; what the call answers is read
      from an environment [Env] of oracles, indexed by how many calls of the
      same kind were made before.
    - Python exceptions are values of [exn]; a computation ends normally,
      raises, or stops the device ([machine.reset()] does not return).
    - [config.py] is not part of [main.py]: its values are the fields of
      [Config].
    - The name [machine] is taken to be bound to MicroPython's [machine]
      module, as the script uses it ([machine.ADC], [machine.reset]).
    - Console output ([print], [log]) does not influence control flow and is
      left out of the history, together with the clock reads [log] makes for
      the prefix of its lines.
    - Floating point values are idealised as exact rationals; [round(x, 1)]
      and the format [.1f] round to the nearest tenth, ties to even.
    - The hardware side of the watchdog (expiry of the 5 s countdown) happens
      outside the program and is not modelled; the history records when the
      program arms and feeds it. *)

From Stdlib Require Import ZArith QArith Qround List String Ascii Bool Arith Lia.
From Stdlib Require Import DecimalString DecimalN.
From Equations Require Import Equations.
Import ListNotations.

Local Open Scope Z_scope.
Local Open Scope string_scope.

(** ** Exceptions *)

Module Py.

(** The exception classes the script can meet.  [MQTTException] is umqtt's own
    class, a direct subclass of [Exception]; [KeyboardInterrupt] and
    [SystemExit] derive from [BaseException] only. *)
Inductive exn : Type :=
| OSError (errno : Z)
| IndexError
| MemoryError
| MQTTException (code : Z)
| KeyboardInterrupt
| SystemExit.

(** [isinstance(e, OSError)] *)
Definition is_OSError (e : exn) : bool :=
  match e with OSError _ => true | _ => false end.

(** [isinstance(e, Exception)] *)
Definition is_Exception (e : exn) : bool :=
  match e with KeyboardInterrupt | SystemExit => false | _ => true end.

(** A bare [except:] clause. *)
Definition is_BaseException (e : exn) : bool := true.

End Py.
Export Py.

(** ** Configuration, history and environment *)

Record Config : Type := mkConfig {
  MQTT_BROKER : string;
  MQTT_PORT : Z;
  MQTT_USER : string;
  MQTT_PASSWD : string;
  MQTT_CLIENT_ID : string;
  MQTT_PUBLISH_TOPIC : string;
  DEVICE_TYPE : string;
  VERSION : string;          (* as [str(config.VERSION)] renders it *)
  PUBLISH_INTERVAL : Z;
  SENSOR_IN_USE : bool;
  LOG_LEVEL : Z
}.

Inductive event : Type :=
| EvWdtArm (timeout_ms : Z)                (* WDT(timeout=...) *)
| EvWdtFeed                                (* wdt.feed() *)
| EvSleep (seconds : Z)                    (* time.sleep(...) *)
| EvGetAddrInfo (host : string) (port : Z) (* socket.getaddrinfo(...) *)
| EvSocket                                 (* socket.socket(...) *)
| EvSockConnect                            (* s.connect(addr) *)
| EvSockClose                              (* s.close() *)
| EvMqttConnect                            (* mqtt_client.connect() *)
| EvMqttPublish (topic msg : string)       (* mqtt_client.publish(topic, msg) *)
| EvMqttDisconnect                         (* mqtt_client.disconnect() *)
| EvSensorInit                             (* dht20.DHT20(0x38, i2c0) *)
| EvSensorRead                             (* dht20.measurements *)
| EvAdcRead                                (* sensor.read_u16() *)
| EvClock                                  (* time.time() *)
| EvReset.                                 (* machine.reset() *)

(** Where the statements of the [try] body of [watchdog_task] can fail. *)
Inductive probe_stage : Type :=
| AtGetAddrInfo   (* socket.getaddrinfo(...) raises *)
| AtIndex         (* [0][-1] on its result raises *)
| AtSocket        (* socket.socket(...) raises *)
| AtConnect       (* s.connect(addr) raises *)
| AtClose.        (* s.close() raises *)

(** What the network does to one link probe. *)
Inductive probe_outcome : Type :=
| ProbeCompleted
| ProbeFails (stage : probe_stage) (e : exn).

Record Env : Type := mkEnv {
  connect_result : option exn;             (* mqtt_client.connect(): None = returns *)
  sensor_init_result : option exn;         (* the DHT20 constructor *)
  probe_result : nat -> probe_outcome;     (* the k-th link probe *)
  publish_result : nat -> option exn;      (* the k-th mqtt_client.publish *)
  disconnect_result : option exn;          (* mqtt_client.disconnect() *)
  sensor_result : nat -> exn + (Q * Q);    (* the k-th read of dht20.measurements: (t, rh) *)
  adc_result : nat -> Z;                   (* the k-th sensor.read_u16() *)
  clock_result : nat -> Z                  (* the k-th time.time() *)
}.

Record World : Type := mkWorld {
  trace : list event;     (* the calls made so far, oldest first *)
  n_probe : nat;          (* link probes started *)
  n_publish : nat;        (* mqtt_client.publish calls made *)
  n_sensor : nat;         (* reads of dht20.measurements *)
  n_adc : nat;            (* reads of the ADC *)
  n_clock : nat           (* reads of the clock *)
}.

Definition emit (e : event) (w : World) : World :=
  mkWorld (trace w ++ [e]) (n_probe w) (n_publish w) (n_sensor w) (n_adc w) (n_clock w).

(** ** The monad of script fragments *)

Inductive outcome (A : Type) : Type :=
| Ret (a : A)        (* the fragment completes *)
| Raise (e : exn)    (* an exception propagates out of it *)
| Halt               (* machine.reset() was called: the device restarts *)
| Fuel.              (* the model's budget of loop iterations ran out *)
Arguments Ret {A} a.
Arguments Raise {A} e.
Arguments Halt {A}.
Arguments Fuel {A}.

Definition M (A : Type) : Type := World -> outcome A * World.

Definition ret {A} (a : A) : M A := fun w => (Ret a, w).
Definition raise {A} (e : exn) : M A := fun w => (Raise e, w).

Definition bind {A B} (m : M A) (k : A -> M B) : M B :=
  fun w =>
    match m w with
    | (Ret a, w') => k a w'
    | (Raise e, w') => (Raise e, w')
    | (Halt, w') => (Halt, w')
    | (Fuel, w') => (Fuel, w')
    end.

Declare Scope py_scope.
Delimit Scope py_scope with py.
Notation "x <- c1 ;; c2" := (bind c1 (fun x => c2))
  (at level 61, c1 at next level, right associativity) : py_scope.
Notation "c1 ;; c2" := (bind c1 (fun _ => c2))
  (at level 61, right associativity) : py_scope.
Local Open Scope py_scope.

(** [try: body  except <class> as e: handler e] *)
Definition try_except {A} (body : M A) (catches : exn -> bool) (handler : exn -> M A) : M A :=
  fun w =>
    match body w with
    | (Raise e, w') => if catches e then handler e w' else (Raise e, w')
    | r => r
    end.

(** [try: body  finally: cleanup].  The cleanup runs after a normal end and
    after an exception; an exception of the cleanup replaces the pending one.
    Nothing runs once the device has been reset. *)
Definition try_finally {A} (body : M A) (cleanup : M unit) : M A :=
  fun w =>
    match body w with
    | (Ret a, w') => (cleanup ;; ret a) w'
    | (Raise e, w') => (cleanup ;; raise e) w'
    | r => r
    end.

(** An external call: it is recorded, then returns or raises. *)
Definition call (ev : event) (r : option exn) : M unit :=
  fun w => match r with
           | None => (Ret tt, emit ev w)
           | Some e => (Raise e, emit ev w)
           end.

(** A statement that has no trace but may raise. *)
Definition check (r : option exn) : M unit :=
  match r with None => ret tt | Some e => raise e end.

(** ** Rendering of numbers *)

Definition dquote : string := String (ascii_of_nat 34) EmptyString.

(** [str(n)] for a natural number. *)
Definition str_N (n : N) : string := NilZero.string_of_uint (N.to_uint n).

(** [str(z)] for a Python int. *)
Definition str_int (z : Z) : string := NilZero.string_of_int (Z.to_int z).

(** The format [02d]: at least two characters, padded with zeros. *)
Definition fmt_02d (z : Z) : string :=
  if ((0 <=? z) && (z <? 10))%Z then "0" ++ str_int z else str_int z.

(** The integer nearest to [q], ties to the even one. *)
Definition round_half_even (q : Q) : Z :=
  let n := Qnum q in
  let d := Zpos (Qden q) in
  let f := (n / d)%Z in
  let r := (n mod d)%Z in
  match (2 * r ?= d)%Z with
  | Lt => f
  | Gt => (f + 1)%Z
  | Eq => if Z.even f then f else (f + 1)%Z
  end.

(** The number of tenths [x] is rounded to. *)
Definition tenths (x : Q) : Z := round_half_even (x * (10 # 1))%Q.

(** A float that holds a whole number of tenths, with its sign bit. *)
Record dec1 : Type := mkDec1 { d_neg : bool; d_mag : N }.

(** [round(x, 1)] *)
Definition round1 (x : Q) : dec1 :=
  mkDec1 (Qnum x <? 0)%Z (Z.to_N (Z.abs (tenths x))).

(** [str(d)] for a float rounded to one decimal. *)
Definition str_dec1 (d : dec1) : string :=
  (if d_neg d then "-" else EmptyString)
  ++ str_N (d_mag d / 10)%N ++ "." ++ str_N (d_mag d mod 10)%N.

(** The format [.1f]. *)
Definition fmt_1f (x : Q) : string := str_dec1 (round1 x).

(** ** The script *)

Section Script.

Variable config : Config.
Variable env : Env.
(** Module-level values that are set before the watchdog is armed. *)
Variable boot_time : Z.           (* line 27: time.time() at start *)
Variable mac_address : string.    (* line 110 *)
Variable ip_address : string.     (* line 109 *)

Definition bump_probe (w : World) : World :=
  mkWorld (trace w) (S (n_probe w)) (n_publish w) (n_sensor w) (n_adc w) (n_clock w).
Definition bump_publish (w : World) : World :=
  mkWorld (trace w) (n_probe w) (S (n_publish w)) (n_sensor w) (n_adc w) (n_clock w).
Definition bump_sensor (w : World) : World :=
  mkWorld (trace w) (n_probe w) (n_publish w) (S (n_sensor w)) (n_adc w) (n_clock w).
Definition bump_adc (w : World) : World :=
  mkWorld (trace w) (n_probe w) (n_publish w) (n_sensor w) (S (n_adc w)) (n_clock w).
Definition bump_clock (w : World) : World :=
  mkWorld (trace w) (n_probe w) (n_publish w) (n_sensor w) (n_adc w) (S (n_clock w)).

(** [time.time()] *)
Definition time_time : M Z :=
  fun w => (Ret (clock_result env (n_clock w)), bump_clock (emit EvClock w)).

(** [time.sleep(s)] *)
Definition time_sleep (s : Z) : M unit := call (EvSleep s) None.

(** [wdt.feed()] *)
Definition wdt_feed : M unit := call EvWdtFeed None.

(** [machine.reset()]: the device restarts, the call does not return. *)
Definition machine_reset {A} : M A := fun w => (Halt, emit EvReset w).

(** [sys.exit()] *)
Definition sys_exit {A} : M A := raise SystemExit.

(** Lines 41-46 and 163-168 (the same function, defined twice). *)
Definition CalcUptime (t : Z) : string :=
  let timeDiff := (t - boot_time)%Z in
  let (minutes, seconds) := (timeDiff / 60, timeDiff mod 60)%Z in
  let (hours, minutes) := (minutes / 60, minutes mod 60)%Z in
  let (days, hours) := (hours / 24, hours mod 24)%Z in
  str_int days ++ ":" ++ fmt_02d hours ++ ":" ++ fmt_02d minutes ++ ":" ++ fmt_02d seconds.

(** Lines 49-53. *)
Definition ReadTemperature : M dec1 :=
  fun w =>
    let adc_value := adc_result env (n_adc w) in
    let volt := (((33 # 10) / (65535 # 1)) * inject_Z adc_value)%Q in
    let temperature := ((27 # 1) - (volt - (706 # 1000)) / (1721 # 1000000))%Q in
    (Ret (round1 temperature), bump_adc (emit EvAdcRead w)).

Definition stage_eqb (a b : probe_stage) : bool :=
  match a, b with
  | AtGetAddrInfo, AtGetAddrInfo | AtIndex, AtIndex | AtSocket, AtSocket
  | AtConnect, AtConnect | AtClose, AtClose => true
  | _, _ => false
  end.

(** What the statement at [st] does under the outcome [o]. *)
Definition at_stage (st : probe_stage) (o : probe_outcome) : option exn :=
  match o with
  | ProbeCompleted => None
  | ProbeFails st' e => if stage_eqb st st' then Some e else None
  end.

(** Lines 56-74. *)
Definition watchdog_task : M unit :=
  fun w =>
    let o := probe_result env (n_probe w) in
    try_except
      (call (EvGetAddrInfo (MQTT_BROKER config) (MQTT_PORT config)) (at_stage AtGetAddrInfo o) ;;
       check (at_stage AtIndex o) ;;
       call EvSocket (at_stage AtSocket o) ;;
       call EvSockConnect (at_stage AtConnect o) ;;
       call EvSockClose (at_stage AtClose o) ;;
       wdt_feed)
      is_OSError
      (fun _ => ret tt)
      (bump_probe w).

(** Line 152: the text handed to the broker. *)
Definition format_message (category message : string) : string :=
  category ++ ",deviceId=" ++ MQTT_CLIENT_ID config
           ++ ",deviceType=" ++ DEVICE_TYPE config
           ++ ",deviceVersion=" ++ VERSION config ++ " " ++ message.

(** [mqtt_client.publish(topic, m)] *)
Definition mqtt_client_publish (topic m : string) : M unit :=
  fun w => call (EvMqttPublish topic m) (publish_result env (n_publish w)) (bump_publish w).

(** Lines 149-160. *)
Definition mqtt_publish (topic category message : string) : M unit :=
  try_except
    (let m := format_message category message in
     mqtt_client_publish (MQTT_PUBLISH_TOPIC config) m)
    is_Exception
    (fun _ => sys_exit).

(** Lines 176-184: the readings of this iteration, as (t, rh). *)
Definition read_measurements : M (Q * Q) :=
  if SENSOR_IN_USE config then
    fun w =>
      match sensor_result env (n_sensor w) with
      | inl e => (Raise e, bump_sensor (emit EvSensorRead w))
      | inr m => (Ret m, bump_sensor (emit EvSensorRead w))
      end
  else ret ((21 # 1)%Q, (50 # 1)%Q).

(** Line 190. *)
Definition telemetry_fields (uptime : string) (internal : dec1) : string :=
  "uptime=" ++ dquote ++ uptime ++ dquote
  ++ ",internal_temperature=" ++ str_dec1 internal
  ++ ",MAC_address=" ++ dquote ++ mac_address ++ dquote
  ++ ",IP_address=" ++ dquote ++ ip_address ++ dquote.

(** Line 202. *)
Definition measurement_fields (temp_C humidity : Q) : string :=
  "temperature=" ++ fmt_1f temp_C ++ ",humidity=" ++ fmt_1f humidity.

(** Lines 176-202: one Publishing phase. *)
Definition publishing : M unit :=
  measurements <- read_measurements ;;
  now <- time_time ;;
  let uptime := CalcUptime now in
  _unused <- ReadTemperature ;;                    (* line 188, the string [s] *)
  internal <- ReadTemperature ;;
  let telemetry_message := telemetry_fields uptime internal in
  mqtt_publish (MQTT_PUBLISH_TOPIC config) "telemetry" telemetry_message ;;
  let temp_C := fst measurements in
  let humidity := snd measurements in
  mqtt_publish (MQTT_PUBLISH_TOPIC config) "measurement" (measurement_fields temp_C humidity).

(** Lines 208-211: [while interval < config.PUBLISH_INTERVAL]. *)
Equations wait_loop (interval : Z) : M unit
  by wf (Z.to_nat (PUBLISH_INTERVAL config - interval)) lt :=
  wait_loop interval with Z_lt_dec interval (PUBLISH_INTERVAL config) => {
    | left _ => time_sleep 1 ;; watchdog_task ;; wait_loop (interval + 1)
    | right _ => ret tt }.
Next Obligation. lia. Qed.

(** Lines 204-218: one Waiting phase. *)
Definition waiting : M unit := wait_loop 0.

(** Lines 172-218: [while True], cut after [fuel] iterations. *)
Fixpoint main_loop (fuel : nat) : M unit :=
  match fuel with
  | O => fun w => (Fuel, w)
  | S fuel' => publishing ;; waiting ;; main_loop fuel'
  end.

(** Lines 121-224. *)
Definition main (fuel : nat) : M unit :=
  call (EvWdtArm 5000) None ;;
  try_except (call EvMqttConnect (connect_result env))
             is_BaseException
             (fun _ => machine_reset) ;;
  (if SENSOR_IN_USE config then call EvSensorInit (sensor_init_result env) else ret tt) ;;
  try_finally
    (try_except (main_loop fuel) is_Exception (fun _ => ret tt))
    (call EvMqttDisconnect (disconnect_result env) ;; machine_reset).

End Script.

(** ** Observations on histories *)

Local Open Scope list_scope.

Definition is_feed (e : event) : bool :=
  match e with EvWdtFeed => true | _ => false end.
Definition is_sleep (e : event) : bool :=
  match e with EvSleep _ => true | _ => false end.
Definition is_probe (e : event) : bool :=
  match e with EvGetAddrInfo _ _ => true | _ => false end.
Definition is_reset (e : event) : bool :=
  match e with EvReset => true | _ => false end.
Definition is_publish (e : event) : bool :=
  match e with EvMqttPublish _ _ => true | _ => false end.
Definition is_sensor_read (e : event) : bool :=
  match e with EvSensorRead => true | _ => false end.

Definition count (p : event -> bool) (l : list event) : nat := List.length (filter p l).

(** The messages handed to the broker, in order. *)
Fixpoint published (l : list event) : list string :=
  match l with
  | [] => []
  | EvMqttPublish _ m :: l' => m :: published l'
  | _ :: l' => published l'
  end.

(** What [w'] has recorded beyond [w]. *)
Definition new_events (w w' : World) : list event :=
  skipn (List.length (trace w)) (trace w').

(** The history grows by [l]; [k] more probes were started. *)
Definition after_probes (l : list event) (k : nat) (w : World) : World :=
  mkWorld (trace w ++ l) (n_probe w + k) (n_publish w) (n_sensor w) (n_adc w) (n_clock w).

(** ** The link probe and its report *)

Inductive HealthStatus : Type := Reachable | Unreachable.

(** What [watchdog_task] concludes: the branch that logs "successful" is taken
    when every statement of the [try] body completes, the [except OSError]
    branch logs "failed"; an exception of another class leaves the function. *)
Definition probe_report (o : probe_outcome) : option HealthStatus :=
  match o with
  | ProbeCompleted => Some Reachable
  | ProbeFails _ e => if is_OSError e then Some Unreachable else None
  end.

Definition probe_escape (o : probe_outcome) : option exn :=
  match o with
  | ProbeCompleted => None
  | ProbeFails _ e => if is_OSError e then None else Some e
  end.

(** The calls one run of [watchdog_task] makes. *)
Definition probe_events (host : string) (port : Z) (o : probe_outcome) : list event :=
  match o with
  | ProbeCompleted =>
      [EvGetAddrInfo host port; EvSocket; EvSockConnect; EvSockClose; EvWdtFeed]
  | ProbeFails AtGetAddrInfo _ | ProbeFails AtIndex _ => [EvGetAddrInfo host port]
  | ProbeFails AtSocket _ => [EvGetAddrInfo host port; EvSocket]
  | ProbeFails AtConnect _ => [EvGetAddrInfo host port; EvSocket; EvSockConnect]
  | ProbeFails AtClose _ => [EvGetAddrInfo host port; EvSocket; EvSockConnect; EvSockClose]
  end.

Definition outcome_of_escape (r : option exn) : outcome unit :=
  match r with None => Ret tt | Some e => Raise e end.

Lemma count_app p l1 l2 : count p (l1 ++ l2) = (count p l1 + count p l2)%nat.
Proof. unfold count. rewrite filter_app, length_app. reflexivity. Qed.

Lemma published_app l1 l2 : published (l1 ++ l2) = published l1 ++ published l2.
Proof.
  induction l1 as [|e l1 IH]; simpl; [reflexivity|].
  destruct e; simpl; rewrite ?IH; reflexivity.
Qed.

Lemma new_events_app w w' l : trace w' = trace w ++ l -> new_events w w' = l.
Proof.
  intros H. unfold new_events. rewrite H.
  rewrite skipn_app, skipn_all, Nat.sub_diag. reflexivity.
Qed.

Lemma after_probes_0 w : after_probes [] 0 w = w.
Proof. destruct w. unfold after_probes. simpl. rewrite app_nil_r, Nat.add_0_r. reflexivity. Qed.

Lemma n_probe_after_probes l k w : n_probe (after_probes l k w) = (n_probe w + k)%nat.
Proof. reflexivity. Qed.

Lemma after_probes_twice l1 k1 l2 k2 w :
  after_probes l2 k2 (after_probes l1 k1 w) = after_probes (l1 ++ l2) (k1 + k2) w.
Proof. unfold after_probes. simpl. rewrite app_assoc, Nat.add_assoc. reflexivity. Qed.

(** Reduces the projections of a world and one step of the monad. *)
Ltac world_step :=
  cbn [n_sensor n_publish n_adc n_clock n_probe trace emit bump_sensor bump_adc
       bump_clock bump_publish bump_probe fst snd app].

(** Normalises a world built by [emit] and the counters. *)
Ltac world_simpl :=
  cbn;
  unfold emit, bump_probe, bump_publish, bump_sensor, bump_adc, bump_clock, after_probes;
  cbn; rewrite <- ?app_assoc; cbn.

Section ProbeAndWait.

Variable config : Config.
Variable env : Env.

Let host := MQTT_BROKER config.
Let port := MQTT_PORT config.

(** One run of [watchdog_task], in closed form. *)
Lemma watchdog_task_run (w : World) :
  let o := probe_result env (n_probe w) in
  watchdog_task config env w
  = (outcome_of_escape (probe_escape o), after_probes (probe_events host port o) 1 w).
Proof.
  destruct w as [tr np npub ns na nc]. cbn zeta.
  unfold watchdog_task, after_probes, host, port. cbn [n_probe trace n_publish n_sensor n_adc n_clock bump_probe].
  rewrite Nat.add_1_r.
  destruct (probe_result env np) as [|st e].
  - world_simpl. reflexivity.
  - destruct st; cbn; destruct (is_OSError e); world_simpl; reflexivity.
Qed.

(** One tick of the wait loop: [time.sleep(1)], then [watchdog_task()]. *)
Definition tick : M unit := time_sleep 1 ;; watchdog_task config env.

Definition tick_events (o : probe_outcome) : list event :=
  EvSleep 1 :: probe_events host port o.

Lemma tick_run (w : World) :
  let o := probe_result env (n_probe w) in
  tick w = (outcome_of_escape (probe_escape o), after_probes (tick_events o) 1 w).
Proof.
  cbn zeta. unfold tick, bind, time_sleep, call.
  rewrite watchdog_task_run.
  destruct w as [tr np npub ns na nc]. unfold tick_events. world_simpl. reflexivity.
Qed.

(** The loop of lines 208-211, one unfolding. *)
Lemma wait_loop_step (interval : Z) :
  wait_loop config env interval
  = if Z_lt_dec interval (PUBLISH_INTERVAL config)
    then time_sleep 1 ;; watchdog_task config env ;; wait_loop config env (interval + 1)
    else ret tt.
Proof.
  rewrite wait_loop_equation_1.
  destruct (Z_lt_dec interval (PUBLISH_INTERVAL config)); reflexivity.
Qed.

(** The probes a wait of at most [k] ticks runs, from the [n]-th on: the loop
    stops behind a probe whose exception escapes. *)
Fixpoint wait_probes (k n : nat) : list probe_outcome :=
  match k with
  | O => []
  | S k' =>
      let o := probe_result env n in
      o :: match probe_escape o with
           | None => wait_probes k' (S n)
           | Some _ => []
           end
  end.

Fixpoint wait_outcome (k n : nat) : outcome unit :=
  match k with
  | O => Ret tt
  | S k' =>
      match probe_escape (probe_result env n) with
      | None => wait_outcome k' (S n)
      | Some e => Raise e
      end
  end.

Lemma wait_loop_run (k : nat) :
  forall (interval : Z) (w : World),
    Z.to_nat (PUBLISH_INTERVAL config - interval) = k ->
    wait_loop config env interval w
    = (wait_outcome k (n_probe w),
       after_probes (List.concat (map tick_events (wait_probes k (n_probe w))))
                    (List.length (wait_probes k (n_probe w))) w).
Proof.
  induction k as [|k IH]; intros interval w Hk; rewrite wait_loop_step.
  - destruct (Z_lt_dec interval (PUBLISH_INTERVAL config)) as [Hlt|_]; [lia|].
    cbn. rewrite after_probes_0. reflexivity.
  - destruct (Z_lt_dec interval (PUBLISH_INTERVAL config)) as [Hlt|Hge]; [|lia].
    change (time_sleep 1;; watchdog_task config env;; wait_loop config env (interval + 1))
      with (bind (time_sleep 1) (fun _ => bind (watchdog_task config env)
                                           (fun _ => wait_loop config env (interval + 1)))).
    assert (Htick : forall k0 : M unit,
               bind (time_sleep 1) (fun _ => bind (watchdog_task config env) (fun _ => k0)) w
               = bind tick (fun _ => k0) w).
    { intros k0. unfold tick, bind, time_sleep, call.
      destruct (watchdog_task config env (emit (EvSleep 1) w)) as [[ | | | ] w2]; reflexivity. }
    rewrite Htick. unfold bind. rewrite tick_run. cbn zeta.
    cbn [wait_outcome wait_probes].
    destruct (probe_escape (probe_result env (n_probe w))) as [e|] eqn:Hesc; cbn [outcome_of_escape].
    + cbn. rewrite app_nil_r. reflexivity.
    + rewrite (IH (interval + 1) _ ltac:(lia)).
      rewrite n_probe_after_probes, Nat.add_1_r.
      f_equal. rewrite after_probes_twice. reflexivity.
Qed.

End ProbeAndWait.

(** ** The wait cycle, tick by tick *)

Section WaitCycle.

Variable config : Config.
Variable env : Env.

Definition is_reachable (o : probe_outcome) : bool :=
  match o with ProbeCompleted => true | ProbeFails _ _ => false end.

Lemma tick_events_feed (o : probe_outcome) :
  count is_feed (tick_events config o) = if is_reachable o then 1%nat else 0%nat.
Proof. destruct o as [|[] e]; reflexivity. Qed.

Lemma tick_events_sleep (o : probe_outcome) : count is_sleep (tick_events config o) = 1%nat.
Proof. destruct o as [|[] e]; reflexivity. Qed.

Lemma tick_events_probe (o : probe_outcome) : count is_probe (tick_events config o) = 1%nat.
Proof. destruct o as [|[] e]; reflexivity. Qed.

Lemma is_reachable_report (o : probe_outcome) :
  is_reachable o = true <-> probe_report o = Some Reachable.
Proof.
  destruct o as [|st e]; cbn; [tauto|].
  destruct (is_OSError e); split; intro H; discriminate H.
Qed.

Lemma unreachable_not_reachable (o : probe_outcome) :
  probe_report o = Some Unreachable -> is_reachable o = false.
Proof. destruct o; cbn; [discriminate | reflexivity]. Qed.

(** The probes of a wait are consecutive calls of the environment. *)
Lemma wait_probes_seq (k n : nat) :
  wait_probes env k n = map (probe_result env) (seq n (List.length (wait_probes env k n))).
Proof.
  revert n. induction k as [|k IH]; intros n; cbn; [reflexivity|].
  destruct (probe_escape (probe_result env n)); cbn; [reflexivity|].
  rewrite <- IH. reflexivity.
Qed.

Lemma wait_probes_nth (k n t : nat) (o : probe_outcome) :
  nth_error (wait_probes env k n) t = Some o -> o = probe_result env (n + t).
Proof.
  revert n t. induction k as [|k IH]; intros n t H; cbn in H.
  - destruct t; discriminate H.
  - destruct t as [|t]; cbn in H.
    + injection H as <-. rewrite Nat.add_0_r. reflexivity.
    + destruct (probe_escape (probe_result env n)).
      * destruct t; discriminate H.
      * apply IH in H. rewrite H. f_equal. lia.
Qed.

Lemma wait_probes_length (k n : nat) : (List.length (wait_probes env k n) <= k)%nat.
Proof.
  revert n. induction k as [|k IH]; intros n; cbn; [lia|].
  destruct (probe_escape (probe_result env n)); cbn; [lia|].
  specialize (IH (S n)). lia.
Qed.

(** When every probe reports a status, the wait runs all its ticks. *)
Lemma wait_all_report (k n : nat) :
  (forall t, (t < k)%nat -> probe_report (probe_result env (n + t)) <> None) ->
  wait_outcome env k n = Ret tt /\ List.length (wait_probes env k n) = k.
Proof.
  revert n. induction k as [|k IH]; intros n H; cbn; [auto|].
  assert (H0 : probe_escape (probe_result env n) = None).
  { specialize (H O ltac:(lia)). rewrite Nat.add_0_r in H.
    destruct (probe_result env n) as [|st e]; cbn in *; [reflexivity|].
    destruct (is_OSError e); [reflexivity | congruence]. }
  rewrite H0. cbn.
  destruct (IH (S n)) as [IH1 IH2].
  - intros t Ht. replace (S n + t)%nat with (n + S t)%nat by lia. apply H. lia.
  - split; [exact IH1 | f_equal; exact IH2].
Qed.

Lemma count_ticks_feed (l : list probe_outcome) :
  count is_feed (List.concat (map (tick_events config) l)) = List.length (filter is_reachable l).
Proof.
  induction l as [|o l IH]; [reflexivity|].
  cbn [map List.concat filter]. rewrite count_app, tick_events_feed, IH.
  destruct (is_reachable o); reflexivity.
Qed.

Lemma count_ticks_sleep (l : list probe_outcome) :
  count is_sleep (List.concat (map (tick_events config) l)) = List.length l.
Proof.
  induction l as [|o l IH]; [reflexivity|].
  cbn [map List.concat List.length]. rewrite count_app, tick_events_sleep, IH. reflexivity.
Qed.

Lemma count_ticks_probe (l : list probe_outcome) :
  count is_probe (List.concat (map (tick_events config) l)) = List.length l.
Proof.
  induction l as [|o l IH]; [reflexivity|].
  cbn [map List.concat List.length]. rewrite count_app, tick_events_probe, IH. reflexivity.
Qed.

(** The wait cycle of lines 204-211, in closed form. *)
Lemma waiting_run (w : World) :
  let k := Z.to_nat (PUBLISH_INTERVAL config) in
  let ps := wait_probes env k (n_probe w) in
  waiting config env w
  = (wait_outcome env k (n_probe w),
     after_probes (List.concat (map (tick_events config) ps)) (List.length ps) w).
Proof.
  cbn zeta. unfold waiting. apply wait_loop_run. f_equal. lia.
Qed.

Lemma waiting_new_events (w : World) :
  new_events w (snd (waiting config env w))
  = List.concat (map (tick_events config)
                     (wait_probes env (Z.to_nat (PUBLISH_INTERVAL config)) (n_probe w))).
Proof. rewrite waiting_run. apply new_events_app. reflexivity. Qed.

End WaitCycle.

(** ** Concrete inputs *)

Definition demo_config : Config :=
  mkConfig "broker.local" 1883 "user" "secret" "pico1" "sensors/pico1" "picoW" "1.4"
           3 false 3.

Definition boot_world : World := mkWorld [] 0 0 0 0 0.

(** An environment in which nothing fails. *)
Definition calm_env : Env :=
  mkEnv None None (fun _ => ProbeCompleted) (fun _ => None) None
        (fun _ => inr ((224 # 10)%Q, (613 # 10)%Q)) (fun _ => 14000%Z)
        (fun k => (1000 + Z.of_nat k)%Z).

Definition with_probes (f : nat -> probe_outcome) (e : Env) : Env :=
  mkEnv (connect_result e) (sensor_init_result e) f (publish_result e)
        (disconnect_result e) (sensor_result e) (adc_result e) (clock_result e).
Definition with_connect (r : option exn) (e : Env) : Env :=
  mkEnv r (sensor_init_result e) (probe_result e) (publish_result e)
        (disconnect_result e) (sensor_result e) (adc_result e) (clock_result e).
Definition with_publish (f : nat -> option exn) (e : Env) : Env :=
  mkEnv (connect_result e) (sensor_init_result e) (probe_result e) f
        (disconnect_result e) (sensor_result e) (adc_result e) (clock_result e).
Definition with_disconnect (r : option exn) (e : Env) : Env :=
  mkEnv (connect_result e) (sensor_init_result e) (probe_result e) (publish_result e)
        r (sensor_result e) (adc_result e) (clock_result e).

(** The broker answers the first probe and is out of reach afterwards
    (errno 113, EHOSTUNREACH, from [s.connect]). *)
Definition lossy_env : Env :=
  with_probes (fun k => match k with
                        | O => ProbeCompleted
                        | _ => ProbeFails AtConnect (OSError 113)
                        end) calm_env.

(** Creating the probe's socket runs out of memory. *)
Definition oom_env : Env :=
  with_probes (fun _ => ProbeFails AtSocket MemoryError) calm_env.

(** ** The claims about the wait cycle *)

(** C1.  The history a wait cycle adds splits into ticks; the tick number [t]
    holds one sleep and one link probe, and it holds a watchdog feed exactly
    when that probe reported Reachable: never more than one feed, and none
    when the probe reported Unreachable. *)
Theorem C1_feed_iff_probe_reachable (config : Config) (env : Env) (w : World) :
  exists ticks : list (list event),
    new_events w (snd (waiting config env w)) = List.concat ticks /\
    forall (t : nat) (tk : list event),
      nth_error ticks t = Some tk ->
      let o := probe_result env (n_probe w + t) in
      count is_sleep tk = 1%nat /\
      count is_probe tk = 1%nat /\
      (count is_feed tk = 1%nat <-> probe_report o = Some Reachable) /\
      (count is_feed tk <= 1)%nat /\
      (probe_report o = Some Unreachable -> count is_feed tk = 0%nat).
Proof.
  exists (map (tick_events config)
              (wait_probes env (Z.to_nat (PUBLISH_INTERVAL config)) (n_probe w))).
  split; [apply waiting_new_events|].
  intros t tk Ht. cbn zeta.
  rewrite nth_error_map in Ht.
  destruct (nth_error (wait_probes env _ (n_probe w)) t) as [o|] eqn:Ho; [|discriminate].
  cbn in Ht. injection Ht as <-.
  apply wait_probes_nth in Ho. rewrite <- Ho.
  rewrite tick_events_sleep, tick_events_probe, tick_events_feed.
  repeat split.
  - intros H. apply is_reachable_report. destruct (is_reachable o); [reflexivity | discriminate].
  - intros H. apply is_reachable_report in H. rewrite H. reflexivity.
  - destruct (is_reachable o); lia.
  - intros H. rewrite (unreachable_not_reachable o H). reflexivity.
Qed.

(** C2.  With a publish interval of N >= 1 and probes that each report
    Reachable or Unreachable, in any order, the wait cycle ends normally after
    exactly N ticks, each a one second sleep followed by one link probe, and
    the script goes on with what follows the loop. *)
Theorem C2_wait_runs_exactly_N_ticks (config : Config) (env : Env) (w : World) :
  (1 <= PUBLISH_INTERVAL config)%Z ->
  (forall t, (t < Z.to_nat (PUBLISH_INTERVAL config))%nat ->
             probe_report (probe_result env (n_probe w + t)) <> None) ->
  let w' := snd (waiting config env w) in
  fst (waiting config env w) = Ret tt /\
  (forall next : M unit, (waiting config env ;; next) w = next w') /\
  count is_sleep (new_events w w') = Z.to_nat (PUBLISH_INTERVAL config) /\
  count is_probe (new_events w w') = Z.to_nat (PUBLISH_INTERVAL config) /\
  exists ticks : list (list event),
    List.length ticks = Z.to_nat (PUBLISH_INTERVAL config) /\
    new_events w w' = List.concat ticks /\
    forall (t : nat) (tk : list event),
      nth_error ticks t = Some tk ->
      exists rest,
        tk = EvSleep 1 :: EvGetAddrInfo (MQTT_BROKER config) (MQTT_PORT config) :: rest /\
        count is_sleep rest = 0%nat /\ count is_probe rest = 0%nat.
Proof.
  intros HN Hrep. cbn zeta.
  destruct (wait_all_report env _ _ Hrep) as [Hout Hlen].
  assert (Hfst : fst (waiting config env w) = Ret tt).
  { rewrite waiting_run. exact Hout. }
  repeat split.
  - exact Hfst.
  - intros next. unfold bind.
    destruct (waiting config env w) as [r w1]. cbn in Hfst |- *. rewrite Hfst. reflexivity.
  - rewrite waiting_new_events, count_ticks_sleep. exact Hlen.
  - rewrite waiting_new_events, count_ticks_probe. exact Hlen.
  - exists (map (tick_events config)
                (wait_probes env (Z.to_nat (PUBLISH_INTERVAL config)) (n_probe w))).
    split; [rewrite length_map; exact Hlen|].
    split; [apply waiting_new_events|].
    intros t tk Ht. rewrite nth_error_map in Ht.
    destruct (nth_error (wait_probes env _ (n_probe w)) t) as [o|]; [|discriminate].
    cbn in Ht. injection Ht as <-.
    destruct o as [|[] e]; eexists; (split; [reflexivity | split; reflexivity]).
Qed.

Lemma C2_wait_runs_exactly_N_ticks_witness :
  fst (waiting demo_config lossy_env boot_world) = Ret tt /\
  count is_sleep (new_events boot_world (snd (waiting demo_config lossy_env boot_world))) = 3%nat.
Proof.
  assert (H1 : (1 <= PUBLISH_INTERVAL demo_config)%Z) by (cbn; lia).
  assert (H2 : forall t, (t < Z.to_nat (PUBLISH_INTERVAL demo_config))%nat ->
                         probe_report (probe_result lossy_env (n_probe boot_world + t)) <> None).
  { intros t _. destruct t; cbn; discriminate. }
  destruct (C2_wait_runs_exactly_N_ticks demo_config lossy_env boot_world H1 H2)
    as (Hret & _ & Hsleep & _).
  split; [exact Hret | exact Hsleep].
Defined.

(** C5, as stated, fails: with a publish interval of 3 and a broker that is
    reachable on the first tick only, the wait cycle runs three ticks and
    feeds the watchdog once; the second and third tick make no [feed()] call. *)
Lemma C5_tick_without_feed :
  new_events boot_world (snd (waiting demo_config lossy_env boot_world))
  = [EvSleep 1; EvGetAddrInfo "broker.local" 1883; EvSocket; EvSockConnect; EvSockClose;
     EvWdtFeed;
     EvSleep 1; EvGetAddrInfo "broker.local" 1883; EvSocket; EvSockConnect;
     EvSleep 1; EvGetAddrInfo "broker.local" 1883; EvSocket; EvSockConnect]
  /\ ~ (count is_sleep (new_events boot_world (snd (waiting demo_config lossy_env boot_world)))
        <= count is_feed (new_events boot_world (snd (waiting demo_config lossy_env boot_world))))%nat.
Proof.
  assert (E : new_events boot_world (snd (waiting demo_config lossy_env boot_world))
              = [EvSleep 1; EvGetAddrInfo "broker.local" 1883; EvSocket; EvSockConnect;
                 EvSockClose; EvWdtFeed;
                 EvSleep 1; EvGetAddrInfo "broker.local" 1883; EvSocket; EvSockConnect;
                 EvSleep 1; EvGetAddrInfo "broker.local" 1883; EvSocket; EvSockConnect]).
  { rewrite waiting_new_events. reflexivity. }
  split; [exact E|]. rewrite E. cbn. lia.
Qed.

(** C5, amended.  Over a wait cycle the number of [feed()] calls is the number
    of ticks whose probe reported Reachable: at most one per tick, and one on
    every tick exactly when every probe of the cycle reported Reachable. *)
Theorem C5_feeds_count_reachable_ticks (config : Config) (env : Env) (w : World) :
  let new := new_events w (snd (waiting config env w)) in
  let ticks := count is_sleep new in
  count is_feed new
  = List.length (filter is_reachable (map (fun t => probe_result env (n_probe w + t)%nat)
                                          (seq 0 ticks))) /\
  (count is_feed new <= ticks)%nat /\
  (count is_feed new = ticks <->
   forall t, (t < ticks)%nat ->
             probe_report (probe_result env (n_probe w + t)) = Some Reachable).
Proof.
  cbn zeta. rewrite waiting_new_events, count_ticks_feed, count_ticks_sleep.
  set (k := Z.to_nat (PUBLISH_INTERVAL config)).
  assert (Hseq : wait_probes env k (n_probe w)
                 = map (fun t => probe_result env (n_probe w + t)%nat)
                       (seq 0 (List.length (wait_probes env k (n_probe w))))).
  { rewrite (wait_probes_seq env k (n_probe w)) at 1.
    generalize (List.length (wait_probes env k (n_probe w))) as m. intros m.
    rewrite <- (Nat.add_0_r (n_probe w)) at 1.
    generalize 0%nat as s. induction m as [|m IH]; intros s; cbn; [reflexivity|].
    f_equal. rewrite <- IH. f_equal. f_equal. lia. }
  rewrite <- Hseq.
  generalize (fun t o => wait_probes_nth env k (n_probe w) t o).
  generalize (wait_probes env k (n_probe w)) as l. intros l Hnth.
  split; [reflexivity|]. split; [apply filter_length_le|].
  split.
  - intros Hall t Ht.
    destruct (nth_error l t) as [o|] eqn:Ho.
    + rewrite <- (Hnth t o Ho). apply is_reachable_report.
      assert (Hf : forall x, In x l -> is_reachable x = true).
      { clear - Hall. induction l as [|a l IH]; intros x Hx; [destruct Hx|].
        cbn in Hall. destruct (is_reachable a) eqn:Ha.
        - cbn in Hall. injection Hall as Hall. destruct Hx as [<-|Hx]; auto.
        - pose proof (filter_length_le is_reachable l). cbn in Hall. lia. }
      apply Hf. eapply nth_error_In. exact Ho.
    + apply nth_error_None in Ho. lia.
  - intros Hall.
    assert (Hf : forall x, In x l -> is_reachable x = true).
    { intros x Hx. apply In_nth_error in Hx. destruct Hx as [t Ht].
      rewrite (Hnth t x Ht). apply is_reachable_report. apply Hall.
      apply nth_error_Some. congruence. }
    clear - Hf. induction l as [|a l IH]; [reflexivity|].
    cbn. rewrite (Hf a (or_introl eq_refl)). cbn. f_equal. apply IH.
    intros x Hx. apply Hf. right. exact Hx.
Qed.

(** C4, as stated, fails: when [socket.socket()] raises [MemoryError], which
    is not an [OSError], the exception leaves [watchdog_task]. *)
Lemma C4_probe_raises_to_caller :
  fst (watchdog_task demo_config oom_env boot_world) = Raise MemoryError
  /\ fst (waiting demo_config oom_env boot_world) = Raise MemoryError
  /\ count is_sleep (new_events boot_world (snd (waiting demo_config oom_env boot_world))) = 1%nat.
Proof. repeat split; reflexivity. Qed.

(** C4, amended.  A failure of the probe that is an [OSError] (as a failed DNS
    resolution, a refused connection or a timeout are) is absorbed in
    [watchdog_task]: it returns normally, makes no [feed()] call, and the
    caller goes on.  An exception of another class raised while probing is
    not absorbed: it propagates to the caller. *)
Theorem C4_probe_absorbs_OSError (config : Config) (env : Env) (w : World)
        (stage : probe_stage) (e : exn) :
  probe_result env (n_probe w) = ProbeFails stage e ->
  (is_OSError e = true ->
   fst (watchdog_task config env w) = Ret tt /\
   count is_feed (new_events w (snd (watchdog_task config env w))) = 0%nat /\
   forall next : M unit,
     (watchdog_task config env ;; next) w = next (snd (watchdog_task config env w))) /\
  (is_OSError e = false -> fst (watchdog_task config env w) = Raise e).
Proof.
  intros Ho. rewrite watchdog_task_run. cbn zeta.
  assert (Hrun := watchdog_task_run config env w). cbn zeta in Hrun.
  rewrite Ho in *. cbn [probe_escape fst snd] in *.
  split; intros He; rewrite He in *; cbn [outcome_of_escape] in *.
  - split; [reflexivity|]. split.
    + rewrite (new_events_app w _ (probe_events (MQTT_BROKER config) (MQTT_PORT config)
                                                (ProbeFails stage e))) by reflexivity.
      destruct stage; reflexivity.
    + intros next. unfold bind. rewrite Hrun. reflexivity.
  - reflexivity.
Qed.

Lemma C4_probe_absorbs_OSError_witness :
  probe_result lossy_env 1 = ProbeFails AtConnect (OSError 113) /\
  fst (watchdog_task demo_config lossy_env (mkWorld [] 1 0 0 0 0)) = Ret tt.
Proof.
  split; [reflexivity|].
  destruct (C4_probe_absorbs_OSError demo_config lossy_env (mkWorld [] 1 0 0 0 0)
                                     AtConnect (OSError 113) eq_refl) as [Habs _].
  destruct (Habs eq_refl) as [Hret _]. exact Hret.
Defined.

(** ** The Publishing phase *)

Section Publishing.

Variable config : Config.
Variable env : Env.
Variable boot_time : Z.
Variable mac_address : string.
Variable ip_address : string.

Let topic := MQTT_PUBLISH_TOPIC config.

(** How [mqtt_publish] ends when [mqtt_client.publish] ends with [r]. *)
Definition publish_outcome (r : option exn) : outcome unit :=
  match r with
  | None => Ret tt
  | Some e => if is_Exception e then Raise SystemExit else Raise e
  end.

Definition after_publish (m : string) (w : World) : World :=
  mkWorld (trace w ++ [EvMqttPublish topic m])
          (n_probe w) (S (n_publish w)) (n_sensor w) (n_adc w) (n_clock w).

(** One call of [mqtt_publish], in closed form. *)
Lemma mqtt_publish_run (t category message : string) (w : World) :
  mqtt_publish config env t category message w
  = (publish_outcome (publish_result env (n_publish w)),
     after_publish (format_message config category message) w).
Proof.
  destruct w as [tr np npub ns na nc].
  unfold mqtt_publish, try_except, mqtt_client_publish, call, after_publish, topic.
  cbn. destruct (publish_result env npub) as [e|]; cbn; [|reflexivity].
  destruct (is_Exception e); reflexivity.
Qed.

Lemma publish_outcome_not_halt (r : option exn) :
  publish_outcome r <> Halt /\ publish_outcome r <> Fuel.
Proof.
  destruct r as [e|]; cbn; [destruct (is_Exception e)|]; split; discriminate.
Qed.

(** The value [ReadTemperature] computes from a raw ADC count. *)
Definition internal_temperature (adc_value : Z) : dec1 :=
  let volt := (((33 # 10) / (65535 # 1)) * inject_Z adc_value)%Q in
  round1 ((27 # 1) - (volt - (706 # 1000)) / (1721 # 1000000))%Q.

Lemma ReadTemperature_run (w : World) :
  ReadTemperature env w
  = (Ret (internal_temperature (adc_result env (n_adc w))), bump_adc (emit EvAdcRead w)).
Proof. reflexivity. Qed.

(** The readings an iteration works with. *)
Definition readings_of (w : World) : exn + (Q * Q) :=
  if SENSOR_IN_USE config then sensor_result env (n_sensor w)
  else inr ((21 # 1)%Q, (50 # 1)%Q).

(** The events of an iteration before its first publish. *)
Definition sampling_events : list event :=
  (if SENSOR_IN_USE config then [EvSensorRead] else []) ++ [EvClock; EvAdcRead; EvAdcRead].

Definition telemetry_of (w : World) : string :=
  format_message config "telemetry"
    (telemetry_fields mac_address ip_address
       (CalcUptime boot_time (clock_result env (n_clock w)))
       (internal_temperature (adc_result env (S (n_adc w))))).

Definition measurement_of (m : Q * Q) : string :=
  format_message config "measurement" (measurement_fields (fst m) (snd m)).

(** The events one Publishing phase adds to the history. *)
Definition publishing_events (w : World) : list event :=
  match readings_of w with
  | inl _ => [EvSensorRead]
  | inr m =>
      sampling_events ++
      EvMqttPublish topic (telemetry_of w) ::
      match publish_result env (n_publish w) with
      | Some _ => []
      | None => [EvMqttPublish topic (measurement_of m)]
      end
  end.

(** How one Publishing phase ends. *)
Definition publishing_outcome (w : World) : outcome unit :=
  match readings_of w with
  | inl e => Raise e
  | inr _ =>
      match publish_result env (n_publish w) with
      | Some e => publish_outcome (Some e)
      | None => publish_outcome (publish_result env (S (n_publish w)))
      end
  end.

Definition publishes_made (w : World) : nat :=
  match readings_of w with
  | inl _ => 0
  | inr _ => match publish_result env (n_publish w) with Some _ => 1 | None => 2 end
  end.

Local Abbreviation publishing_ := (publishing config env boot_time mac_address ip_address).

Lemma publishing_run (w : World) :
  fst (publishing_ w) = publishing_outcome w /\
  trace (snd (publishing_ w)) = trace w ++ publishing_events w /\
  n_publish (snd (publishing_ w)) = (n_publish w + publishes_made w)%nat /\
  n_probe (snd (publishing_ w)) = n_probe w.
Proof.
  destruct w as [tr np npub ns na nc].
  unfold publishing_outcome, publishing_events, publishes_made, readings_of,
    sampling_events, telemetry_of, measurement_of, internal_temperature, topic,
    publish_outcome.
  unfold publishing, read_measurements, bind, time_time, ret, ReadTemperature,
    mqtt_publish, try_except, mqtt_client_publish, call, sys_exit, raise.
  destruct (SENSOR_IN_USE config); world_step;
    [destruct (sensor_result env ns) as [e|m]; world_step|];
    try (destruct (publish_result env npub) as [e1|]; world_step;
         [destruct (is_Exception e1)
         |destruct (publish_result env (S npub)) as [e2|];
          [destruct (is_Exception e2)|]]);
    world_step; rewrite <- ?app_assoc; repeat split; try reflexivity; lia.
Qed.

End Publishing.

(** ** The claims about the Publishing phase *)

Lemma publish_outcome_ret (r : option exn) : publish_outcome r = Ret tt -> r = None.
Proof.
  destruct r as [e|]; [|reflexivity]. cbn. destruct (is_Exception e); discriminate.
Qed.

(** C8.  A Publishing phase that completes has made exactly two [publish]
    calls: the telemetry record first, the measurement record second, each in
    a call of its own. *)
Theorem C8_telemetry_then_measurement
        (config : Config) (env : Env) (boot_time : Z) (mac_address ip_address : string)
        (w : World) :
  fst (publishing config env boot_time mac_address ip_address w) = Ret tt ->
  let w' := snd (publishing config env boot_time mac_address ip_address w) in
  exists (uptime : string) (internal : dec1) (temp_C humidity : Q),
    filter is_publish (new_events w w')
    = [EvMqttPublish (MQTT_PUBLISH_TOPIC config)
         (format_message config "telemetry"
            (telemetry_fields mac_address ip_address uptime internal));
       EvMqttPublish (MQTT_PUBLISH_TOPIC config)
         (format_message config "measurement" (measurement_fields temp_C humidity))]
    /\ n_publish w' = (n_publish w + 2)%nat.
Proof.
  intros Hret. cbn zeta.
  destruct (publishing_run config env boot_time mac_address ip_address w)
    as (Hout & Htr & Hn & _).
  rewrite Hout in Hret. rewrite (new_events_app _ _ _ Htr), Hn.
  unfold publishing_outcome, publishing_events, publishes_made in *.
  destruct (readings_of config env w) as [e|m]; [discriminate|].
  destruct (publish_result env (n_publish w)) as [e1|].
  - apply publish_outcome_ret in Hret. discriminate.
  - exists (CalcUptime boot_time (clock_result env (n_clock w))),
           (internal_temperature (adc_result env (S (n_adc w)))), (fst m), (snd m).
    split; [|reflexivity].
    unfold sampling_events. rewrite filter_app.
    destruct (SENSOR_IN_USE config); reflexivity.
Qed.

Lemma C8_telemetry_then_measurement_witness :
  fst (publishing demo_config calm_env 900 "28cdc1aabbcc" "192.168.1.23" boot_world) = Ret tt /\
  exists (uptime : string) (internal : dec1) (temp_C humidity : Q),
    filter is_publish
      (new_events boot_world
         (snd (publishing demo_config calm_env 900 "28cdc1aabbcc" "192.168.1.23" boot_world)))
    = [EvMqttPublish (MQTT_PUBLISH_TOPIC demo_config)
         (format_message demo_config "telemetry"
            (telemetry_fields "28cdc1aabbcc" "192.168.1.23" uptime internal));
       EvMqttPublish (MQTT_PUBLISH_TOPIC demo_config)
         (format_message demo_config "measurement" (measurement_fields temp_C humidity))]
    /\ n_publish (snd (publishing demo_config calm_env 900 "28cdc1aabbcc" "192.168.1.23"
                                  boot_world)) = (n_publish boot_world + 2)%nat.
Proof.
  split; [vm_compute; reflexivity|].
  apply (C8_telemetry_then_measurement demo_config calm_env 900
           "28cdc1aabbcc" "192.168.1.23" boot_world).
  vm_compute; reflexivity.
Defined.

(** C9.  The text [mqtt_publish] hands to the broker depends on the category,
    the field set and the device configuration only: whatever the history and
    the environment of the two calls, they send the same string. *)
Theorem C9_format_is_pure
        (config : Config) (env1 env2 : Env) (w1 w2 : World)
        (topic1 topic2 category fields : string) :
  let sent1 := published (new_events w1 (snd (mqtt_publish config env1 topic1 category fields w1))) in
  let sent2 := published (new_events w2 (snd (mqtt_publish config env2 topic2 category fields w2))) in
  sent1 = [format_message config category fields] /\ sent2 = sent1.
Proof.
  cbn zeta. rewrite !mqtt_publish_run. cbn [snd].
  rewrite (new_events_app w1 _ [EvMqttPublish (MQTT_PUBLISH_TOPIC config)
                                  (format_message config category fields)]) by reflexivity.
  rewrite (new_events_app w2 _ [EvMqttPublish (MQTT_PUBLISH_TOPIC config)
                                  (format_message config category fields)]) by reflexivity.
  split; reflexivity.
Qed.

(** Line 202 on the simulated readings of lines 181-184. *)
Lemma simulated_fields :
  measurement_fields (21 # 1) (50 # 1) = "temperature=21.0,humidity=50.0"%string.
Proof. vm_compute. reflexivity. Qed.

(** C10.  With [SENSOR_IN_USE] false an iteration does not read the sensor,
    and the measurement it publishes (it does once the telemetry publish has
    returned) carries the field set [temperature=21.0,humidity=50.0]. *)
Theorem C10_simulated_measurement
        (config : Config) (env : Env) (boot_time : Z) (mac_address ip_address : string)
        (w : World) :
  SENSOR_IN_USE config = false ->
  let new := new_events w (snd (publishing config env boot_time mac_address ip_address w)) in
  read_measurements config env w = (Ret ((21 # 1)%Q, (50 # 1)%Q), w) /\
  count is_sensor_read new = 0%nat /\
  (forall m, In m (published new) ->
             m = telemetry_of config env boot_time mac_address ip_address w \/
             m = format_message config "measurement" "temperature=21.0,humidity=50.0") /\
  (publish_result env (n_publish w) = None ->
   published new
   = [telemetry_of config env boot_time mac_address ip_address w;
      format_message config "measurement" "temperature=21.0,humidity=50.0"]).
Proof.
  intros Hsim. cbn zeta.
  destruct (publishing_run config env boot_time mac_address ip_address w)
    as (_ & Htr & _ & _).
  rewrite (new_events_app _ _ _ Htr).
  unfold publishing_events, readings_of, sampling_events, read_measurements, measurement_of.
  rewrite Hsim. cbn [app fst snd].
  rewrite simulated_fields.
  set (tele := telemetry_of config env boot_time mac_address ip_address w).
  set (meas := format_message config "measurement" "temperature=21.0,humidity=50.0").
  split; [reflexivity|].
  destruct (publish_result env (n_publish w)) as [e|];
    cbn [published count filter is_sensor_read List.length In].
  - split; [reflexivity|]. split; [|discriminate].
    intros m [<-|[]]. left. reflexivity.
  - split; [reflexivity|]. split; [|reflexivity].
    intros m [<-|[<-|[]]]; [left|right]; reflexivity.
Qed.

Lemma C10_simulated_measurement_witness :
  SENSOR_IN_USE demo_config = false /\
  published (new_events boot_world
               (snd (publishing demo_config calm_env 900 "28cdc1aabbcc" "192.168.1.23"
                                boot_world)))
  = [telemetry_of demo_config calm_env 900 "28cdc1aabbcc" "192.168.1.23" boot_world;
     format_message demo_config "measurement" "temperature=21.0,humidity=50.0"].
Proof.
  split; [reflexivity|].
  apply (C10_simulated_measurement demo_config calm_env 900 "28cdc1aabbcc" "192.168.1.23"
           boot_world eq_refl).
  vm_compute; reflexivity.
Defined.

(** ** Boot, main loop and the unwind path *)

Lemma bind_stop (m : M unit) (k : unit -> M unit) (w : World) :
  (forall a, fst (m w) <> Ret a) -> bind m k w = m w.
Proof.
  unfold bind. destruct (m w) as [[a| e | | ] w1]; cbn; intros H;
    [destruct (H a eq_refl) | reflexivity ..].
Qed.

Lemma bind_go (m : M unit) (k : unit -> M unit) (w : World) :
  fst (m w) = Ret tt -> bind m k w = k tt (snd (m w)).
Proof.
  unfold bind. destruct (m w) as [[a| e | | ] w1]; cbn; intros H; try discriminate.
  destruct a. reflexivity.
Qed.

Lemma count_reset_ticks (config : Config) (l : list probe_outcome) :
  count is_reset (List.concat (map (tick_events config) l)) = 0%nat.
Proof.
  induction l as [|o l IH]; [reflexivity|].
  cbn [map List.concat]. rewrite count_app, IH.
  destruct o as [|[] e]; reflexivity.
Qed.

Section MainProgram.

Variable config : Config.
Variable env : Env.
Variable boot_time : Z.
Variable mac_address : string.
Variable ip_address : string.

Local Abbreviation publishing_ := (publishing config env boot_time mac_address ip_address).
Local Abbreviation main_loop_ := (main_loop config env boot_time mac_address ip_address).
Local Abbreviation main_ := (main config env boot_time mac_address ip_address).

(** A failing [connect()]: lines 134-139 end in [machine.reset()]. *)
Lemma main_connect_failure (fuel : nat) (w : World) (e : exn) :
  connect_result env = Some e ->
  main_ fuel w
  = (Halt, mkWorld (trace w ++ [EvWdtArm 5000; EvMqttConnect; EvReset])
                   (n_probe w) (n_publish w) (n_sensor w) (n_adc w) (n_clock w)).
Proof.
  intros He. destruct w as [tr np npub ns na nc].
  unfold main, bind, call, try_except, machine_reset. rewrite He.
  world_simpl. reflexivity.
Qed.

(** The world in which the main loop starts after a successful boot. *)
Definition booted (w : World) : World :=
  mkWorld (trace w ++ [EvWdtArm 5000; EvMqttConnect]
                   ++ (if SENSOR_IN_USE config then [EvSensorInit] else []))
          (n_probe w) (n_publish w) (n_sensor w) (n_adc w) (n_clock w).

(** Lines 220-224 applied to the way the main loop ended. *)
Definition unwind (r : outcome unit * World) : outcome unit * World :=
  match r with
  | (Ret _, w') | (Raise _, w') =>
      match disconnect_result env with
      | None => (Halt, emit EvReset (emit EvMqttDisconnect w'))
      | Some e' => (Raise e', emit EvMqttDisconnect w')
      end
  | (Halt, w') => (Halt, w')
  | (Fuel, w') => (Fuel, w')
  end.

Lemma main_after_boot (fuel : nat) (w : World) :
  connect_result env = None ->
  (SENSOR_IN_USE config = true -> sensor_init_result env = None) ->
  main_ fuel w = unwind (main_loop_ fuel (booted w)).
Proof.
  intros Hc Hs. destruct w as [tr np npub ns na nc].
  unfold main, booted. unfold bind at 1 2 3. unfold call at 1 2. unfold try_except at 1.
  rewrite Hc.
  destruct (SENSOR_IN_USE config); [rewrite (Hs eq_refl)|];
    unfold call, ret, emit; world_step; rewrite <- ?app_assoc; cbn [app];
    unfold try_finally, try_except, unwind;
    (destruct (main_loop_ fuel _) as [[a|x| | ] w'];
     [|destruct (is_Exception x)| |];
     unfold bind, call, ret, raise, machine_reset;
     destruct (disconnect_result env); reflexivity).
Qed.

(** Once some [publish] has failed, the main loop has stopped behind it. *)
Lemma main_loop_stops_at_failed_publish (fuel : nat) :
  forall (w : World) (k : nat) (e : exn),
    publish_result env k = Some e ->
    (n_publish w <= k)%nat ->
    exists l : list event,
      trace (snd (main_loop_ fuel w)) = trace w ++ l /\
      count is_reset l = 0%nat /\
      (n_publish (snd (main_loop_ fuel w)) <= S k)%nat /\
      (n_publish (snd (main_loop_ fuel w)) = S k ->
       (exists x, fst (main_loop_ fuel w) = Raise x) /\
       exists l0 t m, l = l0 ++ [EvMqttPublish t m]).
Proof.
  induction fuel as [|fuel IH]; intros w k e He Hk.
  - exists []. cbn. rewrite app_nil_r. repeat split; try lia.
  - cbn [main_loop].
    destruct (publishing_run config env boot_time mac_address ip_address w)
      as (Hout & Htr & Hn & Hp).
    assert (Hnoreset : count is_reset (publishing_events config env boot_time
                                         mac_address ip_address w) = 0%nat).
    { unfold publishing_events, sampling_events.
      destruct (readings_of config env w); [reflexivity|].
      rewrite count_app.
      destruct (SENSOR_IN_USE config), (publish_result env (n_publish w)); reflexivity. }
    destruct (publishing_outcome config env w) as [[]|x| | ] eqn:Hpo.
    + (* both publishes returned *)
      rewrite bind_go by (rewrite Hout; reflexivity).
      set (w1 := snd (publishing_ w)) in *.
      assert (Hmade : publishes_made config env w = 2%nat /\ (n_publish w + 2 <= k)%nat).
      { unfold publishing_outcome, publishes_made in *.
        destruct (readings_of config env w); [discriminate|].
        destruct (publish_result env (n_publish w)) as [e1|] eqn:H1.
        - apply publish_outcome_ret in Hpo. discriminate.
        - apply publish_outcome_ret in Hpo. split; [reflexivity|].
          assert (n_publish w <> k) by congruence.
          assert (S (n_publish w) <> k) by congruence. lia. }
      destruct Hmade as [Hmade Hle]. rewrite Hmade in Hn.
      pose proof (waiting_run config env w1) as Hw. cbn zeta in Hw.
      set (ps := wait_probes env (Z.to_nat (PUBLISH_INTERVAL config)) (n_probe w1)) in *.
      destruct (wait_outcome env (Z.to_nat (PUBLISH_INTERVAL config)) (n_probe w1))
        as [[]|x| | ] eqn:Hwo.
      * rewrite bind_go by (rewrite Hw; reflexivity).
        rewrite Hw. cbn [snd].
        set (w2 := after_probes _ _ w1).
        destruct (IH w2 k e He) as (l & Hl1 & Hl2 & Hl3 & Hl4);
          [unfold w2, after_probes; cbn; lia|].
        exists (publishing_events config env boot_time mac_address ip_address w
                ++ List.concat (map (tick_events config) ps) ++ l).
        split; [rewrite Hl1; unfold w2, after_probes; cbn [trace]; rewrite Htr;
                rewrite <- !app_assoc; reflexivity|].
        split; [rewrite !count_app, Hnoreset, count_reset_ticks, Hl2; reflexivity|].
        split; [exact Hl3|].
        intros Hk'. destruct (Hl4 Hk') as [Hx (l0 & t & m & Hl0)].
        split; [exact Hx|].
        exists (publishing_events config env boot_time mac_address ip_address w
                ++ List.concat (map (tick_events config) ps) ++ l0), t, m.
        rewrite Hl0, <- !app_assoc. reflexivity.
      * rewrite bind_stop by (intros a; rewrite Hw; discriminate).
        rewrite Hw. cbn [snd fst].
        exists (publishing_events config env boot_time mac_address ip_address w
                ++ List.concat (map (tick_events config) ps)).
        unfold after_probes; cbn [trace n_publish].
        split; [rewrite Htr, <- !app_assoc; reflexivity|].
        split; [rewrite !count_app, Hnoreset, count_reset_ticks; reflexivity|].
        split; [lia|]. intros; lia.
      * rewrite bind_stop by (intros a; rewrite Hw; discriminate).
        rewrite Hw. cbn [snd fst].
        exists (publishing_events config env boot_time mac_address ip_address w
                ++ List.concat (map (tick_events config) ps)).
        unfold after_probes; cbn [trace n_publish].
        split; [rewrite Htr, <- !app_assoc; reflexivity|].
        split; [rewrite !count_app, Hnoreset, count_reset_ticks; reflexivity|].
        split; [lia|]. intros; lia.
      * rewrite bind_stop by (intros a; rewrite Hw; discriminate).
        rewrite Hw. cbn [snd fst].
        exists (publishing_events config env boot_time mac_address ip_address w
                ++ List.concat (map (tick_events config) ps)).
        unfold after_probes; cbn [trace n_publish].
        split; [rewrite Htr, <- !app_assoc; reflexivity|].
        split; [rewrite !count_app, Hnoreset, count_reset_ticks; reflexivity|].
        split; [lia|]. intros; lia.
    + (* the phase raised *)
      rewrite bind_stop by (intros a; rewrite Hout; discriminate).
      exists (publishing_events config env boot_time mac_address ip_address w).
      split; [exact Htr|]. split; [exact Hnoreset|].
      rewrite Hn, Hout.
      unfold publishing_outcome, publishes_made, publishing_events in *.
      destruct (readings_of config env w) as [e0|m0].
      * split; [lia|]. intros; lia.
      * destruct (publish_result env (n_publish w)) as [e1|] eqn:H1.
        -- split; [lia|]. intros _. split; [eexists; reflexivity|].
           eexists _, _, _. reflexivity.
        -- assert (n_publish w <> k) by congruence.
           split; [lia|]. intros Hk'. split; [eexists; reflexivity|].
           eexists (_ ++ [_]), _, _. rewrite <- app_assoc. reflexivity.
    + exfalso. unfold publishing_outcome in Hpo.
      destruct (readings_of config env w); [discriminate|].
      destruct (publish_result env (n_publish w)) as [e1|];
        [destruct (publish_outcome_not_halt (Some e1)) as [A B]
        |destruct (publish_outcome_not_halt (publish_result env (S (n_publish w)))) as [A B]];
        congruence.
    + exfalso. unfold publishing_outcome in Hpo.
      destruct (readings_of config env w); [discriminate|].
      destruct (publish_result env (n_publish w)) as [e1|];
        [destruct (publish_outcome_not_halt (Some e1)) as [A B]
        |destruct (publish_outcome_not_halt (publish_result env (S (n_publish w)))) as [A B]];
        congruence.
Qed.

End MainProgram.

(** ** The claims about boot and the unwind path *)

(** C6.  When [connect()] fails at boot, whatever the exception, the script
    calls [machine.reset()] once and stops; no [publish] was attempted. *)
Theorem C6_connect_failure_resets_once
        (config : Config) (env : Env) (boot_time : Z) (mac_address ip_address : string)
        (fuel : nat) (w : World) (e : exn) :
  connect_result env = Some e ->
  let r := main config env boot_time mac_address ip_address fuel w in
  fst r = Halt /\
  new_events w (snd r) = [EvWdtArm 5000; EvMqttConnect; EvReset] /\
  count is_reset (new_events w (snd r)) = 1%nat /\
  count is_publish (new_events w (snd r)) = 0%nat /\
  n_publish (snd r) = n_publish w.
Proof.
  intros He. cbn zeta.
  rewrite (main_connect_failure config env boot_time mac_address ip_address fuel w e He).
  cbn [fst snd].
  rewrite (new_events_app w _ [EvWdtArm 5000; EvMqttConnect; EvReset]) by reflexivity.
  repeat split; reflexivity.
Qed.

Lemma C6_connect_failure_resets_once_witness :
  connect_result (with_connect (Some (MQTTException 5)) calm_env) = Some (MQTTException 5) /\
  new_events boot_world
    (snd (main demo_config (with_connect (Some (MQTTException 5)) calm_env)
               900 "28cdc1aabbcc" "192.168.1.23" 4 boot_world))
  = [EvWdtArm 5000; EvMqttConnect; EvReset].
Proof.
  split; [reflexivity|].
  destruct (C6_connect_failure_resets_once demo_config
              (with_connect (Some (MQTTException 5)) calm_env)
              900 "28cdc1aabbcc" "192.168.1.23" 4 boot_world (MQTTException 5) eq_refl)
    as (_ & Hnew & _).
  exact Hnew.
Defined.

(** X1.  What the unwind path of lines 220-224 does behind a failed [publish]:
    nothing is published and no tick runs after the failing call; the script
    calls [disconnect()], and it calls [machine.reset()] if [disconnect()]
    returned. *)
Theorem publish_failure_ends_run
        (config : Config) (env : Env) (boot_time : Z) (mac_address ip_address : string)
        (fuel : nat) (w : World) (k : nat) (e : exn) :
  connect_result env = None ->
  (SENSOR_IN_USE config = true -> sensor_init_result env = None) ->
  publish_result env k = Some e ->
  (n_publish w <= k)%nat ->
  let r := main config env boot_time mac_address ip_address fuel w in
  (n_publish (snd r) <= S k)%nat /\
  (n_publish (snd r) = S k ->
   exists (pre : list event) (t m : string),
     new_events w (snd r)
     = pre ++ [EvMqttPublish t m; EvMqttDisconnect]
           ++ match disconnect_result env with None => [EvReset] | Some _ => [] end /\
     count is_reset pre = 0%nat /\
     fst r = match disconnect_result env with None => Halt | Some e' => Raise e' end).
Proof.
  intros Hc Hs He Hk. cbn zeta.
  rewrite (main_after_boot config env boot_time mac_address ip_address fuel w Hc Hs).
  destruct (main_loop_stops_at_failed_publish config env boot_time mac_address ip_address
              fuel (booted config w) k e He Hk) as (l & Hl1 & Hl2 & Hl3 & Hl4).
  destruct (main_loop config env boot_time mac_address ip_address fuel (booted config w))
    as [r1 w1] eqn:Hrun.
  cbn [fst snd] in *.
  assert (Hboot : trace w1 = trace w ++ ([EvWdtArm 5000; EvMqttConnect]
                    ++ (if SENSOR_IN_USE config then [EvSensorInit] else [])) ++ l).
  { rewrite Hl1. unfold booted. cbn [trace]. rewrite <- !app_assoc. reflexivity. }
  assert (Hnp : n_publish (snd (unwind env (r1, w1))) = n_publish w1).
  { unfold unwind. destruct r1; destruct (disconnect_result env); reflexivity. }
  rewrite Hnp. split; [exact Hl3|].
  intros Hreach. destruct (Hl4 Hreach) as [[x Hx] (l0 & t & m & Hl0)]. subst r1 l.
  exists (([EvWdtArm 5000; EvMqttConnect]
             ++ (if SENSOR_IN_USE config then [EvSensorInit] else [])) ++ l0), t, m.
  rewrite count_app in Hl2.
  split; [|split].
  - unfold unwind. destruct (disconnect_result env);
      apply new_events_app; unfold emit; cbn [trace]; rewrite Hboot, <- !app_assoc;
      reflexivity.
  - rewrite count_app.
    replace (count is_reset l0) with 0%nat by lia.
    destruct (SENSOR_IN_USE config); reflexivity.
  - unfold unwind. destruct (disconnect_result env); reflexivity.
Qed.

Lemma publish_failure_ends_run_witness :
  publish_result (with_publish (fun _ => Some (OSError 104)) calm_env) 0 = Some (OSError 104) /\
  exists (pre : list event) (t m : string),
    new_events boot_world
      (snd (main demo_config (with_publish (fun _ => Some (OSError 104)) calm_env)
                 900 "28cdc1aabbcc" "192.168.1.23" 4 boot_world))
    = pre ++ [EvMqttPublish t m; EvMqttDisconnect] ++ [EvReset] /\
    count is_reset pre = 0%nat /\
    fst (main demo_config (with_publish (fun _ => Some (OSError 104)) calm_env)
              900 "28cdc1aabbcc" "192.168.1.23" 4 boot_world) = Halt.
Proof.
  split; [reflexivity|].
  assert (Hreach : n_publish
                     (snd (main demo_config (with_publish (fun _ => Some (OSError 104)) calm_env)
                                900 "28cdc1aabbcc" "192.168.1.23" 4 boot_world)) = 1%nat)
    by (vm_compute; reflexivity).
  destruct (publish_failure_ends_run demo_config
              (with_publish (fun _ => Some (OSError 104)) calm_env)
              900 "28cdc1aabbcc" "192.168.1.23" 4 boot_world 0 (OSError 104)
              eq_refl (fun _ => eq_refl) eq_refl (le_n 0)) as [_ H].
  exact (H Hreach).
Defined.

(** The broker connection breaks before the first publish: [publish] raises
    ECONNRESET (errno 104), and so does [disconnect()] on the dead socket. *)
Definition broken_link_env : Env :=
  with_disconnect (Some (OSError 104)) (with_publish (fun _ => Some (OSError 104)) calm_env).

(** C3, at a failing input.  [publish] raises and [disconnect()] raises after
    it: the [finally] block is left through the exception of [disconnect()],
    [machine.reset()] is not reached, and the script ends with an uncaught
    [OSError].  With a [disconnect()] that returns, the same run ends in one
    reset. *)
Theorem C3_reset_skipped_when_disconnect_raises :
  let r := main demo_config broken_link_env 900 "28cdc1aabbcc" "192.168.1.23" 4 boot_world in
  fst r = Raise (OSError 104) /\
  trace (snd r)
  = [EvWdtArm 5000; EvMqttConnect; EvClock; EvAdcRead; EvAdcRead;
     EvMqttPublish "sensors/pico1"
       (telemetry_of demo_config broken_link_env 900 "28cdc1aabbcc" "192.168.1.23" boot_world);
     EvMqttDisconnect] /\
  count is_reset (trace (snd r)) = 0%nat /\
  let r' := main demo_config (with_disconnect None broken_link_env)
                 900 "28cdc1aabbcc" "192.168.1.23" 4 boot_world in
  fst r' = Halt /\ trace (snd r') = trace (snd r) ++ [EvReset].
Proof. vm_compute. repeat split; reflexivity. Qed.

(** ** The line format and its reader *)

Local Open Scope string_scope.

Definition is_digit (c : ascii) : bool :=
  match uint_of_char c (Some Decimal.Nil) with Some _ => true | None => false end.

(** The characters of a rendered number: digits, the sign and the point. *)
Definition is_number_char (c : ascii) : bool :=
  is_digit c || Ascii.eqb c "-" || Ascii.eqb c ".".

Fixpoint all_chars (p : ascii -> bool) (s : string) : bool :=
  match s with
  | EmptyString => true
  | String c r => p c && all_chars p r
  end.

Definition lacks (c : ascii) (s : string) : bool :=
  all_chars (fun x => negb (Ascii.eqb x c)) s.

(** [s] without the prefix [p], when it starts with it. *)
Fixpoint strip_prefix (p s : string) : option string :=
  match p, s with
  | EmptyString, _ => Some s
  | String a p', String b s' => if Ascii.eqb a b then strip_prefix p' s' else None
  | String _ _, EmptyString => None
  end.

(** [s] cut at the first [c]. *)
Fixpoint split_at (c : ascii) (s : string) : option (string * string) :=
  match s with
  | EmptyString => None
  | String a r =>
      if Ascii.eqb a c then Some (EmptyString, r)
      else match split_at c r with
           | Some (x, y) => Some (String a x, y)
           | None => None
           end
  end.

(** What follows the last [c] of [s]. *)
Fixpoint after_last (c : ascii) (s : string) : string :=
  match s with
  | EmptyString => EmptyString
  | String a r =>
      if lacks c r then (if Ascii.eqb a c then r else s) else after_last c r
  end.

Definition digit_value (c : ascii) : option Z :=
  match uint_of_char c (Some Decimal.Nil) with
  | Some d => Some (Z.of_N (N.of_uint d))
  | None => None
  end.

(** A leading minus sign, taken off. *)
Definition split_sign (s : string) : bool * string :=
  match s with
  | String c r => if Ascii.eqb c "-" then (true, r) else (false, s)
  | EmptyString => (false, s)
  end.

(** Modelled from the spec: the repository only writes the line format; the
    round trip of section 8 needs a reader.  This one accepts an optional
    sign, at least one digit, a point and exactly one fractional digit, and
    returns the number of tenths. *)
Definition parse_decimal1 (s : string) : option Z :=
  let '(neg, body) := split_sign s in
  match split_at "." body with
  | Some (whole, String d EmptyString) =>
      match NilZero.uint_of_string whole, digit_value d with
      | Some u, Some v =>
          let n := (10 * Z.of_N (N.of_uint u) + v)%Z in
          Some (if neg then (- n)%Z else n)
      | _, _ => None
      end
  | _ => None
  end.

(** Modelled from the spec: the reader of a measurement message.  The field
    set is what follows the last space of the line; it must read
    [temperature=<number>,humidity=<number>]. *)
Definition parse_measurement (line : string) : option (Z * Z) :=
  match strip_prefix "temperature=" (after_last " " line) with
  | Some r =>
      match split_at "," r with
      | Some (t, r') =>
          match strip_prefix "humidity=" r' with
          | Some h =>
              match parse_decimal1 t, parse_decimal1 h with
              | Some a, Some b => Some (a, b)
              | _, _ => None
              end
          | None => None
          end
      | None => None
      end
  | None => None
  end.

(** A number with one fractional digit: sign, digits, point, digit. *)
Definition one_fraction_digit (s : string) : Prop :=
  exists (sign whole : string) (d : ascii),
    s = sign ++ whole ++ "." ++ String d EmptyString /\
    (sign = EmptyString \/ sign = "-") /\
    whole <> EmptyString /\
    all_chars is_digit whole = true /\
    is_digit d = true.

Lemma string_app_assoc (a b c : string) : (a ++ b) ++ c = a ++ (b ++ c).
Proof. induction a as [|x a IH]; cbn; [reflexivity | rewrite IH; reflexivity]. Qed.

Lemma all_chars_app (p : ascii -> bool) (a b : string) :
  all_chars p (a ++ b) = all_chars p a && all_chars p b.
Proof.
  induction a as [|x a IH]; cbn; [reflexivity|].
  rewrite IH, andb_assoc. reflexivity.
Qed.

Lemma all_chars_weaken (p q : ascii -> bool) (s : string) :
  (forall c, p c = true -> q c = true) -> all_chars p s = true -> all_chars q s = true.
Proof.
  intros Hpq. induction s as [|x s IH]; cbn; [reflexivity|].
  intros H. apply andb_true_iff in H. destruct H as [Hx Hs].
  rewrite (Hpq x Hx), (IH Hs). reflexivity.
Qed.

Lemma strip_prefix_app (p s : string) : strip_prefix p (p ++ s) = Some s.
Proof.
  induction p as [|a p IH]; cbn; [destruct s; reflexivity|].
  rewrite Ascii.eqb_refl. exact IH.
Qed.

Lemma split_at_app (c : ascii) (x y : string) :
  lacks c x = true -> split_at c (x ++ String c y) = Some (x, y).
Proof.
  unfold lacks. induction x as [|a x IH]; cbn; intros H.
  - rewrite Ascii.eqb_refl. reflexivity.
  - apply andb_true_iff in H. destruct H as [Ha Hx].
    apply negb_true_iff in Ha. rewrite Ha, (IH Hx). reflexivity.
Qed.

Lemma after_last_app (c : ascii) (h f : string) :
  lacks c f = true -> after_last c (h ++ String c f) = f.
Proof.
  intros Hf. induction h as [|a h IH]; cbn.
  - rewrite Hf, Ascii.eqb_refl. reflexivity.
  - replace (lacks c (h ++ String c f)) with false; [exact IH|].
    unfold lacks. rewrite all_chars_app. cbn. rewrite Ascii.eqb_refl. cbn.
    rewrite andb_false_r. reflexivity.
Qed.

(** *** Rendered numbers read back *)

Lemma string_of_uint_digits (d : Decimal.uint) :
  all_chars is_digit (NilEmpty.string_of_uint d) = true.
Proof. induction d; cbn; auto. Qed.

Lemma to_uint_nonnil (n : N) : N.to_uint n <> Decimal.Nil.
Proof.
  destruct n as [|p]; cbn; [discriminate|].
  apply DecimalPos.Unsigned.to_uint_nonnil.
Qed.

Lemma str_N_digits (n : N) : all_chars is_digit (str_N n) = true.
Proof.
  unfold str_N, NilZero.string_of_uint.
  destruct (N.to_uint n); cbn; auto using string_of_uint_digits.
Qed.

Lemma str_N_nonempty (n : N) : str_N n <> EmptyString.
Proof.
  unfold str_N, NilZero.string_of_uint.
  pose proof (to_uint_nonnil n) as H.
  destruct (N.to_uint n); cbn; [congruence | discriminate ..].
Qed.

Lemma str_N_reads_back (n : N) :
  NilZero.uint_of_string (str_N n) = Some (N.to_uint n).
Proof. unfold str_N. apply NilZero.usu. apply to_uint_nonnil. Qed.

Lemma str_N_one_digit (r : N) :
  (r < 10)%N ->
  exists d : ascii,
    str_N r = String d EmptyString /\ is_digit d = true /\ digit_value d = Some (Z.of_N r).
Proof.
  intros Hr.
  assert (H : (r = 0 \/ r = 1 \/ r = 2 \/ r = 3 \/ r = 4 \/ r = 5 \/ r = 6 \/ r = 7
               \/ r = 8 \/ r = 9)%N) by lia.
  repeat (destruct H as [-> | H]; [eexists; repeat split; reflexivity|]).
  subst r. eexists; repeat split; reflexivity.
Qed.

Lemma digit_is_number_char (c : ascii) : is_digit c = true -> is_number_char c = true.
Proof. intros H. unfold is_number_char. rewrite H. reflexivity. Qed.

Lemma digit_not (c x : ascii) :
  is_digit c = false -> is_digit x = true -> negb (Ascii.eqb x c) = true.
Proof.
  intros Hc Hx. apply negb_true_iff. apply Ascii.eqb_neq. intros ->. congruence.
Qed.

Lemma digits_lack (c : ascii) (s : string) :
  is_digit c = false -> all_chars is_digit s = true -> lacks c s = true.
Proof.
  intros Hc. unfold lacks. apply all_chars_weaken. intros x. apply digit_not. exact Hc.
Qed.

(** The rendering of [str_dec1] has the shape of a number with one
    fractional digit. *)
Lemma str_dec1_shape (d : dec1) : one_fraction_digit (str_dec1 d).
Proof.
  destruct (str_N_one_digit (d_mag d mod 10)) as (c & Hc & Hd & _).
  { apply N.mod_lt. discriminate. }
  exists (if d_neg d then "-" else EmptyString), (str_N (d_mag d / 10)), c.
  unfold str_dec1. rewrite Hc.
  split; [reflexivity|].
  split; [destruct (d_neg d); auto|].
  split; [apply str_N_nonempty|].
  split; [apply str_N_digits | exact Hd].
Qed.

Lemma str_dec1_chars (d : dec1) : all_chars is_number_char (str_dec1 d) = true.
Proof.
  destruct (str_N_one_digit (d_mag d mod 10)) as (c & Hc & Hd & _).
  { apply N.mod_lt. discriminate. }
  unfold str_dec1. rewrite Hc, !all_chars_app.
  rewrite (all_chars_weaken is_digit is_number_char _ digit_is_number_char
             (str_N_digits (d_mag d / 10))).
  cbn. rewrite (digit_is_number_char c Hd).
  destruct (d_neg d); reflexivity.
Qed.

Lemma split_sign_digits (s t : string) :
  s <> EmptyString -> all_chars is_digit s = true -> split_sign (s ++ t) = (false, s ++ t).
Proof.
  destruct s as [|a s]; [congruence|]. intros _ H. cbn in H |- *.
  apply andb_true_iff in H. destruct H as [Ha _].
  replace (Ascii.eqb a "-") with false; [reflexivity|].
  symmetry. apply Ascii.eqb_neq. intros ->. discriminate Ha.
Qed.

(** Reading a rendered number gives its tenths, with the sign. *)
Lemma parse_str_dec1 (d : dec1) :
  parse_decimal1 (str_dec1 d)
  = Some (if d_neg d then (- Z.of_N (d_mag d))%Z else Z.of_N (d_mag d)).
Proof.
  destruct (str_N_one_digit (d_mag d mod 10)) as (c & Hc & Hd & Hv).
  { apply N.mod_lt. discriminate. }
  assert (Hsplit : split_at "." (str_N (d_mag d / 10) ++ String "." (str_N (d_mag d mod 10)))
                   = Some (str_N (d_mag d / 10), String c EmptyString)).
  { rewrite Hc. apply split_at_app. apply digits_lack; [reflexivity | apply str_N_digits]. }
  assert (Hval : (10 * Z.of_N (N.of_uint (N.to_uint (d_mag d / 10))) + Z.of_N (d_mag d mod 10)
                  = Z.of_N (d_mag d))%Z).
  { rewrite DecimalN.Unsigned.of_to.
    rewrite (N.div_mod (d_mag d) 10) at 3 by discriminate. lia. }
  unfold str_dec1, parse_decimal1.
  change ("." ++ str_N (d_mag d mod 10)) with (String "." (str_N (d_mag d mod 10))).
  destruct (d_neg d).
  - change (split_sign ("-" ++ str_N (d_mag d / 10) ++ String "." (str_N (d_mag d mod 10))))
      with (true, str_N (d_mag d / 10) ++ String "." (str_N (d_mag d mod 10))).
    cbn iota. rewrite Hsplit, str_N_reads_back, Hv, Hval. reflexivity.
  - change (EmptyString ++ str_N (d_mag d / 10) ++ String "." (str_N (d_mag d mod 10)))
      with (str_N (d_mag d / 10) ++ String "." (str_N (d_mag d mod 10))).
    rewrite split_sign_digits by (apply str_N_nonempty || apply str_N_digits).
    cbn iota. rewrite Hsplit, str_N_reads_back, Hv, Hval. reflexivity.
Qed.

(** The sign bit [round1] keeps agrees with the sign of the tenths. *)
Lemma round1_value (x : Q) :
  (if d_neg (round1 x) then (- Z.of_N (d_mag (round1 x)))%Z else Z.of_N (d_mag (round1 x)))
  = tenths x.
Proof.
  unfold round1. cbn [d_neg d_mag].
  rewrite Z2N.id by apply Z.abs_nonneg.
  unfold tenths, round_half_even.
  destruct x as [n d]. cbn [Qmult Qnum Qden].
  set (D := Zpos (d * 1)).
  assert (HD : (0 < D)%Z) by (unfold D; lia).
  pose proof (Z.div_mod (n * 10) D ltac:(lia)) as Hdm.
  pose proof (Z.mod_pos_bound (n * 10) D HD) as Hmod.
  destruct (Z.ltb_spec n 0) as [Hneg|Hpos].
  - assert (Hq : (n * 10 / D <= -1)%Z).
    { apply Z.lt_succ_r. apply Z.div_lt_upper_bound; lia. }
    destruct (2 * ((n * 10) mod D) ?= D)%Z; [destruct (Z.even (n * 10 / D))| |]; lia.
  - assert (Hq : (0 <= n * 10 / D)%Z) by (apply Z.div_pos; lia).
    destruct (2 * ((n * 10) mod D) ?= D)%Z; [destruct (Z.even (n * 10 / D))| |]; lia.
Qed.

Lemma parse_fmt_1f (x : Q) : parse_decimal1 (fmt_1f x) = Some (tenths x).
Proof. unfold fmt_1f. rewrite parse_str_dec1, round1_value. reflexivity. Qed.

Lemma number_chars_lack (c : ascii) (s : string) :
  is_number_char c = false -> all_chars is_number_char s = true -> lacks c s = true.
Proof.
  intros Hc. unfold lacks. apply all_chars_weaken. intros x Hx.
  apply negb_true_iff. apply Ascii.eqb_neq. intros ->. congruence.
Qed.

Lemma fmt_1f_lacks (c : ascii) (x : Q) : is_number_char c = false -> lacks c (fmt_1f x) = true.
Proof. intros Hc. apply number_chars_lack; [exact Hc | apply str_dec1_chars]. Qed.

(** The identity part of a message, up to the space before the fields. *)
Definition message_header (config : Config) (category : string) : string :=
  category ++ ",deviceId=" ++ MQTT_CLIENT_ID config
           ++ ",deviceType=" ++ DEVICE_TYPE config
           ++ ",deviceVersion=" ++ VERSION config.

Lemma format_message_header (config : Config) (category fields : string) :
  format_message config category fields
  = message_header config category ++ String " " fields.
Proof.
  unfold format_message, message_header. rewrite !string_app_assoc. reflexivity.
Qed.

Lemma measurement_fields_lack_space (t h : Q) : lacks " " (measurement_fields t h) = true.
Proof.
  unfold measurement_fields, lacks. rewrite !all_chars_app.
  fold (lacks " " (fmt_1f t)). fold (lacks " " (fmt_1f h)).
  rewrite !fmt_1f_lacks by reflexivity. reflexivity.
Qed.

(** A measurement message reads back as the tenths of its two values. *)
Lemma parse_measurement_format (config : Config) (t h : Q) :
  parse_measurement (format_message config "measurement" (measurement_fields t h))
  = Some (tenths t, tenths h).
Proof.
  unfold parse_measurement.
  rewrite format_message_header, after_last_app by apply measurement_fields_lack_space.
  unfold measurement_fields. rewrite strip_prefix_app.
  change (fmt_1f t ++ ",humidity=" ++ fmt_1f h)
    with (fmt_1f t ++ String "," ("humidity=" ++ fmt_1f h)).
  rewrite split_at_app by (apply fmt_1f_lacks; reflexivity).
  rewrite strip_prefix_app, !parse_fmt_1f. reflexivity.
Qed.


(** ** Runs on concrete inputs *)

Example CalcUptime_one_day : CalcUptime 100 90161 = "1:01:01:01".
Proof. vm_compute. reflexivity. Qed.

Example fmt_1f_rounds_to_even :
  fmt_1f (25 # 100) = "0.2" /\ fmt_1f (35 # 100) = "0.4" /\
  fmt_1f (-4 # 100) = "-0.0" /\ fmt_1f (-126 # 100) = "-1.3".
Proof. vm_compute. repeat split; reflexivity. Qed.

(** Publish interval 3, broker reachable throughout: three feeds. *)
Example calm_wait_feeds_three :
  count is_feed (new_events boot_world (snd (waiting demo_config calm_env boot_world))) = 3%nat.
Proof. rewrite waiting_new_events. reflexivity. Qed.

(** One full iteration in the calm environment: two publishes, then three
    ticks with a feed each; the model's budget ends the run there. *)
Example calm_iteration :
  let r := main demo_config calm_env 900 "28cdc1aabbcc" "192.168.1.23" 1 boot_world in
  fst r = Fuel /\
  published (trace (snd r))
  = [telemetry_of demo_config calm_env 900 "28cdc1aabbcc" "192.168.1.23" boot_world;
     "measurement,deviceId=pico1,deviceType=picoW,deviceVersion=1.4 temperature=21.0,humidity=50.0"]%list /\
  count is_feed (trace (snd r)) = 3%nat /\
  count is_sleep (trace (snd r)) = 3%nat /\
  count is_reset (trace (snd r)) = 0%nat.
Proof. vm_compute. repeat split; reflexivity. Qed.

Example measurement_reads_back :
  parse_measurement
    "measurement,deviceId=pico1,deviceType=picoW,deviceVersion=1.4 temperature=21.0,humidity=50.0"
  = Some (210, 500)%Z.
Proof. vm_compute. reflexivity. Qed.

(** * Further properties of the script *)

Local Open Scope list_scope.

(** ** What every run keeps *)

Definition is_arm (e : event) : bool :=
  match e with EvWdtArm _ => true | _ => false end.
Definition is_socket (e : event) : bool :=
  match e with EvSocket => true | _ => false end.
Definition is_close (e : event) : bool :=
  match e with EvSockClose => true | _ => false end.
Definition is_disconnect (e : event) : bool :=
  match e with EvMqttDisconnect => true | _ => false end.

Lemma wait_outcome_cases (env : Env) (k n : nat) :
  wait_outcome env k n = Ret tt \/ exists e, wait_outcome env k n = Raise e.
Proof.
  revert n. induction k as [|k IH]; intros n; cbn; [left; reflexivity|].
  destruct (probe_escape (probe_result env n)) as [e|]; [right; exists e; reflexivity | apply IH].
Qed.

Lemma publish_outcome_cases (r : option exn) :
  publish_outcome r = Ret tt \/ exists e, publish_outcome r = Raise e.
Proof.
  destruct r as [e|]; cbn; [right | left; reflexivity].
  destruct (is_Exception e); eexists; reflexivity.
Qed.

Section RunInvariants.

Variable config : Config.
Variable env : Env.
Variable boot_time : Z.
Variable mac_address : string.
Variable ip_address : string.

Local Abbreviation publishing_ := (publishing config env boot_time mac_address ip_address).
Local Abbreviation main_loop_ := (main_loop config env boot_time mac_address ip_address).
Local Abbreviation main_ := (main config env boot_time mac_address ip_address).
Local Abbreviation phase_events :=
  (publishing_events config env boot_time mac_address ip_address).

Lemma publishing_outcome_cases (w : World) :
  publishing_outcome config env w = Ret tt \/
  exists e, publishing_outcome config env w = Raise e.
Proof.
  unfold publishing_outcome.
  destruct (readings_of config env w) as [e|m]; [right; exists e; reflexivity|].
  destruct (publish_result env (n_publish w)); apply publish_outcome_cases.
Qed.

(** The history of the main loop is a sequence of Publishing phases and wait
    ticks: a property of histories that holds of the empty one and survives
    a phase or a run of ticks put in front holds of what the loop adds.  The
    loop itself neither returns nor resets the device. *)
Lemma main_loop_events (P : list event -> Prop) :
  P [] ->
  (forall w l, P l -> P (phase_events w ++ l)) ->
  (forall ps l, (List.length ps <= Z.to_nat (PUBLISH_INTERVAL config))%nat ->
                P l -> P (List.concat (map (tick_events config) ps) ++ l)) ->
  forall (fuel : nat) (w : World),
    (exists l, trace (snd (main_loop_ fuel w)) = trace w ++ l /\ P l) /\
    (fst (main_loop_ fuel w) = Fuel \/ exists e, fst (main_loop_ fuel w) = Raise e).
Proof.
  intros P0 Pphase Pticks. induction fuel as [|fuel IH]; intros w.
  - cbn. split; [exists []; rewrite app_nil_r; auto | left; reflexivity].
  - cbn [main_loop].
    destruct (publishing_run config env boot_time mac_address ip_address w)
      as (Hout & Htr & _ & _).
    destruct (publishing_outcome_cases w) as [Hpo|[x Hpo]]; rewrite Hpo in Hout.
    + rewrite bind_go by exact Hout.
      set (w1 := snd (publishing_ w)) in *.
      pose proof (waiting_run config env w1) as Hw. cbn zeta in Hw.
      set (ps := wait_probes env (Z.to_nat (PUBLISH_INTERVAL config)) (n_probe w1)) in *.
      destruct (wait_outcome_cases env (Z.to_nat (PUBLISH_INTERVAL config)) (n_probe w1))
        as [Hwo|[x Hwo]]; rewrite Hwo in Hw.
      * rewrite bind_go by (rewrite Hw; reflexivity).
        rewrite Hw. cbn [snd].
        destruct (IH (after_probes (List.concat (map (tick_events config) ps))
                                   (List.length ps) w1)) as [(l & Hl & HP) Hfst].
        split; [|exact Hfst].
        exists (phase_events w ++ List.concat (map (tick_events config) ps) ++ l).
        split; [|apply Pphase, Pticks; [apply wait_probes_length | exact HP]].
        rewrite Hl. unfold after_probes. cbn [trace]. rewrite Htr, <- !app_assoc. reflexivity.
      * rewrite bind_stop by (intros a; rewrite Hw; discriminate).
        rewrite Hw. cbn [fst snd]. split; [|right; exists x; reflexivity].
        exists (phase_events w ++ List.concat (map (tick_events config) ps) ++ []).
        split; [|apply Pphase, Pticks; [apply wait_probes_length | exact P0]].
        unfold after_probes. cbn [trace]. rewrite Htr, app_nil_r, <- !app_assoc. reflexivity.
    + rewrite bind_stop by (intros a; rewrite Hout; discriminate).
      split; [|right; exists x; exact Hout].
      exists (phase_events w ++ []). split; [|apply Pphase, P0].
      rewrite app_nil_r. exact Htr.
Qed.

Lemma phase_events_count (p : event -> bool) (w : World) :
  p EvSensorRead = false -> p EvClock = false -> p EvAdcRead = false ->
  (forall t m, p (EvMqttPublish t m) = false) ->
  count p (phase_events w) = 0%nat.
Proof.
  intros H1 H2 H3 H4. unfold publishing_events, sampling_events.
  destruct (readings_of config env w);
    [unfold count; cbn [filter]; rewrite H1; reflexivity|].
  rewrite !count_app.
  destruct (SENSOR_IN_USE config), (publish_result env (n_publish w));
    unfold count; cbn [filter app]; rewrite ?H1, ?H2, ?H3, ?H4; reflexivity.
Qed.

End RunInvariants.

Section WholeRun.

Variable config : Config.
Variable env : Env.
Variable boot_time : Z.
Variable mac_address : string.
Variable ip_address : string.

Local Abbreviation main_loop_ := (main_loop config env boot_time mac_address ip_address).
Local Abbreviation main_ := (main config env boot_time mac_address ip_address).
Local Abbreviation phase_events :=
  (publishing_events config env boot_time mac_address ip_address).

(** The events of lines 121-146 when the boot succeeds. *)
Definition boot_events : list event :=
  [EvWdtArm 5000; EvMqttConnect] ++ (if SENSOR_IN_USE config then [EvSensorInit] else []).

(** A failing sensor constructor (line 146) is outside every [try]. *)
Lemma main_sensor_init_failure (fuel : nat) (w : World) (e : exn) :
  connect_result env = None ->
  SENSOR_IN_USE config = true ->
  sensor_init_result env = Some e ->
  main_ fuel w
  = (Raise e, mkWorld (trace w ++ [EvWdtArm 5000; EvMqttConnect; EvSensorInit])
                      (n_probe w) (n_publish w) (n_sensor w) (n_adc w) (n_clock w)).
Proof.
  intros Hc Hs He. destruct w as [tr np npub ns na nc].
  unfold main. unfold bind at 1 2 3. unfold call at 1 2. unfold try_except at 1.
  rewrite Hc, Hs, He. unfold call, emit. world_step. rewrite <- !app_assoc. reflexivity.
Qed.

(** The ways a run of the script can go, with the history each one adds. *)
Lemma main_cases (P : list event -> Prop) (fuel : nat) (w : World) :
  P [] ->
  (forall w l, P l -> P (phase_events w ++ l)) ->
  (forall ps l, (List.length ps <= Z.to_nat (PUBLISH_INTERVAL config))%nat ->
                P l -> P (List.concat (map (tick_events config) ps) ++ l)) ->
  let r := main_ fuel w in
  let new := new_events w (snd r) in
  (exists e, connect_result env = Some e /\ fst r = Halt /\
             new = [EvWdtArm 5000; EvMqttConnect; EvReset]) \/
  (exists e, sensor_init_result env = Some e /\ SENSOR_IN_USE config = true /\
             fst r = Raise e /\ new = [EvWdtArm 5000; EvMqttConnect; EvSensorInit]) \/
  (exists l, P l /\
     ((fst r = Fuel /\ new = boot_events ++ l) \/
      (disconnect_result env = None /\ fst r = Halt /\
       new = boot_events ++ l ++ [EvMqttDisconnect; EvReset]) \/
      (exists e, disconnect_result env = Some e /\ fst r = Raise e /\
                 new = boot_events ++ l ++ [EvMqttDisconnect]))).
Proof.
  intros P0 Pphase Pticks. cbn zeta.
  destruct (connect_result env) as [e|] eqn:Hc.
  { left. exists e.
    rewrite (main_connect_failure config env boot_time mac_address ip_address fuel w e Hc).
    cbn [fst snd]. repeat split. apply new_events_app. reflexivity. }
  destruct (SENSOR_IN_USE config) eqn:Hs;
    [destruct (sensor_init_result env) as [e|] eqn:Hi|].
  { right; left. exists e.
    rewrite (main_sensor_init_failure fuel w e Hc Hs Hi).
    cbn [fst snd]. repeat split. apply new_events_app. reflexivity. }
  all: right; right.
  all: rewrite (main_after_boot config env boot_time mac_address ip_address fuel w Hc)
    by (intros; congruence).
  all: destruct (main_loop_events config env boot_time mac_address ip_address P
                   P0 Pphase Pticks fuel (booted config w)) as [(l & Hl & HP) Hfst].
  all: exists l; split; [exact HP|].
  all: assert (Hboot : trace (booted config w) = trace w ++ boot_events)
    by (unfold booted, boot_events; rewrite Hs; reflexivity).
  all: destruct (main_loop_ fuel (booted config w)) as [r1 w1]; cbn [fst snd] in *.
  all: rewrite Hboot in Hl.
  all: destruct Hfst as [->|[x ->]]; unfold unwind.
  all: try (left; split; [reflexivity|]; apply new_events_app; cbn [snd];
            rewrite Hl, <- app_assoc; reflexivity).
  all: right; destruct (disconnect_result env) as [e'|];
    [right; exists e'; split; [reflexivity|split; [reflexivity|]]
    |left; split; [reflexivity|split; [reflexivity|]]];
    apply new_events_app; unfold emit; cbn [trace snd]; rewrite Hl, <- !app_assoc;
    reflexivity.
Qed.

End WholeRun.

Lemma count_ticks_none (config : Config) (p : event -> bool) (ps : list probe_outcome) :
  p (EvSleep 1) = false ->
  p (EvGetAddrInfo (MQTT_BROKER config) (MQTT_PORT config)) = false ->
  p EvSocket = false -> p EvSockConnect = false -> p EvSockClose = false ->
  p EvWdtFeed = false ->
  count p (List.concat (map (tick_events config) ps)) = 0%nat.
Proof.
  intros H1 H2 H3 H4 H5 H6. induction ps as [|o ps IH]; [reflexivity|].
  cbn [map List.concat]. rewrite count_app, IH.
  destruct o as [|[] e]; unfold count, tick_events, probe_events; cbn [filter];
    rewrite ?H1, ?H2, ?H3, ?H4, ?H5, ?H6; reflexivity.
Qed.

Lemma count_boot_events (config : Config) (p : event -> bool) :
  p EvMqttConnect = false -> p EvSensorInit = false ->
  count p (boot_events config) = if p (EvWdtArm 5000) then 1%nat else 0%nat.
Proof.
  intros H1 H2. unfold boot_events, count.
  destruct (SENSOR_IN_USE config); cbn [filter app]; rewrite ?H1, ?H2;
    destruct (p (EvWdtArm 5000)); reflexivity.
Qed.

(** X2.  However a run of the script goes, it starts by arming the watchdog
    (once, with 5000 ms), it never ends by falling out of the script
    normally, and it calls [machine.reset()] at most once, as its last call.
    It ends with an uncaught exception only when the sensor constructor
    raised at boot or when [disconnect()] raised in the [finally] block. *)
Theorem run_ends_in_reset_or_exception
        (config : Config) (env : Env) (boot_time : Z) (mac_address ip_address : string)
        (fuel : nat) (w : World) :
  let r := main config env boot_time mac_address ip_address fuel w in
  let new := new_events w (snd r) in
  (forall a, fst r <> Ret a) /\
  hd_error new = Some (EvWdtArm 5000) /\
  count is_arm new = 1%nat /\
  (count is_reset new <= 1)%nat /\
  (fst r = Halt <-> count is_reset new = 1%nat) /\
  (fst r = Halt -> exists pre, new = pre ++ [EvReset]) /\
  (forall e, fst r = Raise e ->
             (SENSOR_IN_USE config = true /\ sensor_init_result env = Some e) \/
             disconnect_result env = Some e).
Proof.
  cbn zeta.
  pose (P := fun l : list event => count is_reset l = 0%nat /\ count is_arm l = 0%nat).
  assert (P0 : P []) by (split; reflexivity).
  assert (Pphase : forall w l, P l ->
             P (publishing_events config env boot_time mac_address ip_address w ++ l)).
  { intros w0 l [H1 H2]. split; rewrite count_app, phase_events_count; auto. }
  assert (Pticks : forall ps l, (List.length ps <= Z.to_nat (PUBLISH_INTERVAL config))%nat ->
                                P l -> P (List.concat (map (tick_events config) ps) ++ l)).
  { intros ps l _ [H1 H2]. split; rewrite count_app, count_ticks_none; auto. }
  destruct (main_cases config env boot_time mac_address ip_address P fuel w P0 Pphase Pticks)
    as [(e & Hc & Hfst & Hnew)|[(e & Hi & Hs & Hfst & Hnew)|(l & [Hr Ha] & Hrun)]].
  - rewrite Hfst, Hnew. repeat split; try discriminate; try reflexivity; try (cbn; lia).
    intros _. exists [EvWdtArm 5000; EvMqttConnect]. reflexivity.
  - rewrite Hfst, Hnew. repeat split; try discriminate; try reflexivity; try (cbn; lia).
    intros e0 [= <-]. left. split; assumption.
  - assert (Hhd : forall tl, hd_error (boot_events config ++ tl) = Some (EvWdtArm 5000))
      by reflexivity.
    assert (Hboot_r : count is_reset (boot_events config) = 0%nat)
      by (rewrite count_boot_events; reflexivity).
    assert (Hboot_a : count is_arm (boot_events config) = 1%nat)
      by (rewrite count_boot_events; reflexivity).
    destruct Hrun as [[Hfst Hnew]|[(Hd & Hfst & Hnew)|(e & Hd & Hfst & Hnew)]];
      rewrite Hfst, Hnew, Hhd, !count_app, Hboot_r, Hboot_a, Hr, Ha.
    + repeat split; try discriminate; try reflexivity; cbn; lia.
    + repeat split; try discriminate; try reflexivity; try (cbn; lia).
      intros _. exists (boot_events config ++ l ++ [EvMqttDisconnect]).
      rewrite <- !app_assoc. reflexivity.
    + repeat split; try discriminate; try reflexivity; try (cbn; lia).
      intros e0 [= <-]. right. exact Hd.
Qed.

(** X3.  In every run the watchdog is fed no more often than a probe socket
    was closed, a socket is closed no more often than one was created, one is
    created no more often than a probe was started, and a probe is started
    once per one-second sleep of the wait loop: nothing outside
    [watchdog_task] feeds the watchdog. *)
Theorem feeds_bounded_by_completed_probes
        (config : Config) (env : Env) (boot_time : Z) (mac_address ip_address : string)
        (fuel : nat) (w : World) :
  let new := new_events w (snd (main config env boot_time mac_address ip_address fuel w)) in
  (count is_feed new <= count is_close new)%nat /\
  (count is_close new <= count is_socket new)%nat /\
  (count is_socket new <= count is_probe new)%nat /\
  count is_probe new = count is_sleep new.
Proof.
  cbn zeta.
  pose (P := fun l : list event =>
               (count is_feed l <= count is_close l)%nat /\
               (count is_close l <= count is_socket l)%nat /\
               (count is_socket l <= count is_probe l)%nat /\
               count is_probe l = count is_sleep l).
  assert (P0 : P []) by (repeat split; reflexivity).
  assert (Pphase : forall w l, P l ->
             P (publishing_events config env boot_time mac_address ip_address w ++ l)).
  { intros w0 l H. unfold P in *. rewrite !count_app, !phase_events_count; auto. }
  assert (Ptick : forall o, P (tick_events config o)).
  { intros o. unfold P. destruct o as [|[] e]; cbn; lia. }
  assert (Pticks : forall ps l, (List.length ps <= Z.to_nat (PUBLISH_INTERVAL config))%nat ->
                                P l -> P (List.concat (map (tick_events config) ps) ++ l)).
  { intros ps l _ H. induction ps as [|o ps IH]; [exact H|].
    cbn [map List.concat]. rewrite <- app_assoc.
    unfold P in *. specialize (Ptick o). rewrite !count_app in *. lia. }
  assert (Hboot : forall p, p EvMqttConnect = false -> p EvSensorInit = false ->
                            p (EvWdtArm 5000) = false -> count p (boot_events config) = 0%nat).
  { intros p H1 H2 H3. rewrite count_boot_events, H3; auto. }
  destruct (main_cases config env boot_time mac_address ip_address P fuel w P0 Pphase Pticks)
    as [(e & _ & _ & Hnew)|[(e & _ & _ & _ & Hnew)|(l & HP & Hrun)]].
  - rewrite Hnew. cbn. lia.
  - rewrite Hnew. cbn. lia.
  - unfold P in HP.
    destruct Hrun as [[_ Hnew]|[(_ & _ & Hnew)|(e & _ & _ & Hnew)]];
      rewrite Hnew, !count_app, !Hboot by reflexivity; cbn; lia.
Qed.

(** X4.  With a publish interval of zero or less the wait loop runs no tick,
    so a run never sleeps, never probes and never feeds the watchdog. *)
Theorem no_interval_no_feed
        (config : Config) (env : Env) (boot_time : Z) (mac_address ip_address : string)
        (fuel : nat) (w : World) :
  (PUBLISH_INTERVAL config <= 0)%Z ->
  waiting config env w = (Ret tt, w) /\
  let new := new_events w (snd (main config env boot_time mac_address ip_address fuel w)) in
  count is_sleep new = 0%nat /\ count is_probe new = 0%nat /\ count is_feed new = 0%nat.
Proof.
  intros HN. split.
  { unfold waiting. rewrite wait_loop_step.
    destruct (Z_lt_dec 0 (PUBLISH_INTERVAL config)); [lia | reflexivity]. }
  cbn zeta.
  pose (P := fun l : list event =>
               count is_sleep l = 0%nat /\ count is_probe l = 0%nat /\
               count is_feed l = 0%nat).
  assert (P0 : P []) by (repeat split; reflexivity).
  assert (Pphase : forall w l, P l ->
             P (publishing_events config env boot_time mac_address ip_address w ++ l)).
  { intros w0 l H. unfold P in *. rewrite !count_app, !phase_events_count; auto. }
  assert (Pticks : forall ps l, (List.length ps <= Z.to_nat (PUBLISH_INTERVAL config))%nat ->
                                P l -> P (List.concat (map (tick_events config) ps) ++ l)).
  { intros ps l Hlen H. destruct ps as [|o ps]; [exact H|]. cbn in Hlen. lia. }
  assert (Hboot : forall p, p EvMqttConnect = false -> p EvSensorInit = false ->
                            p (EvWdtArm 5000) = false -> count p (boot_events config) = 0%nat).
  { intros p H1 H2 H3. rewrite count_boot_events, H3; auto. }
  destruct (main_cases config env boot_time mac_address ip_address P fuel w P0 Pphase Pticks)
    as [(e & _ & _ & Hnew)|[(e & _ & _ & _ & Hnew)|(l & HP & Hrun)]].
  - rewrite Hnew. repeat split; reflexivity.
  - rewrite Hnew. repeat split; reflexivity.
  - unfold P in HP.
    destruct Hrun as [[_ Hnew]|[(_ & _ & Hnew)|(e & _ & _ & Hnew)]];
      rewrite Hnew, !count_app, !Hboot by reflexivity; cbn; lia.
Qed.

Lemma no_interval_no_feed_witness :
  (PUBLISH_INTERVAL (mkConfig "broker.local" 1883 "user" "secret" "pico1" "sensors/pico1"
                              "picoW" "1.4" 0 false 3) <= 0)%Z /\
  count is_feed
    (new_events boot_world
       (snd (main (mkConfig "broker.local" 1883 "user" "secret" "pico1" "sensors/pico1"
                            "picoW" "1.4" 0 false 3)
                  calm_env 900 "28cdc1aabbcc" "192.168.1.23" 3 boot_world))) = 0%nat.
Proof.
  assert (H : (PUBLISH_INTERVAL (mkConfig "broker.local" 1883 "user" "secret" "pico1"
                                          "sensors/pico1" "picoW" "1.4" 0 false 3) <= 0)%Z)
    by (cbn; lia).
  split; [exact H|].
  destruct (no_interval_no_feed _ calm_env 900 "28cdc1aabbcc" "192.168.1.23" 3 boot_world H)
    as (_ & _ & _ & Hfeed).
  exact Hfeed.
Defined.

Definition fails_at (st : probe_stage) (o : probe_outcome) : bool :=
  match o with ProbeFails st' _ => stage_eqb st st' | ProbeCompleted => false end.

(** X5.  A probe whose [s.connect(addr)] raises never reaches [s.close()]:
    over a wait cycle the calls of [socket.socket()] are the [close()] calls,
    plus the probes in which [socket.socket()] itself raised, plus the probes
    that failed in [connect] and left their socket open. *)
Theorem connect_failure_leaves_socket_open (config : Config) (env : Env) (w : World) :
  let new := new_events w (snd (waiting config env w)) in
  let probes := map (fun t => probe_result env (n_probe w + t)%nat)
                    (seq 0 (count is_sleep new)) in
  count is_socket new
  = (count is_close new
     + List.length (filter (fails_at AtSocket) probes)
     + List.length (filter (fails_at AtConnect) probes))%nat.
Proof.
  cbn zeta. rewrite waiting_new_events, count_ticks_sleep.
  set (k := Z.to_nat (PUBLISH_INTERVAL config)).
  assert (Hseq : wait_probes env k (n_probe w)
                 = map (fun t => probe_result env (n_probe w + t)%nat)
                       (seq 0 (List.length (wait_probes env k (n_probe w))))).
  { rewrite (wait_probes_seq env k (n_probe w)) at 1.
    generalize (List.length (wait_probes env k (n_probe w))) as m. intros m.
    rewrite <- (Nat.add_0_r (n_probe w)) at 1.
    generalize 0%nat as s. induction m as [|m IH]; intros s; cbn; [reflexivity|].
    f_equal. rewrite <- IH. f_equal. f_equal. lia. }
  rewrite <- Hseq.
  generalize (wait_probes env k (n_probe w)) as l.
  induction l as [|o l IH]; [reflexivity|].
  cbn [map List.concat filter]. rewrite !count_app, IH.
  destruct o as [|[] e]; cbn; lia.
Qed.

Section Cycles.

Variable config : Config.
Variable env : Env.
Variable boot_time : Z.
Variable mac_address : string.
Variable ip_address : string.

Local Abbreviation publishing_ := (publishing config env boot_time mac_address ip_address).
Local Abbreviation main_loop_ := (main_loop config env boot_time mac_address ip_address).
Local Abbreviation phase_events :=
  (publishing_events config env boot_time mac_address ip_address).

(** One iteration in which nothing raises: a Publishing phase with its two
    publishes, then all the ticks of the wait. *)
Lemma iteration_run (w : World) :
  (exists m, readings_of config env w = inr m) ->
  publish_result env (n_publish w) = None ->
  publish_result env (S (n_publish w)) = None ->
  (forall t, (t < Z.to_nat (PUBLISH_INTERVAL config))%nat ->
             probe_report (probe_result env (n_probe w + t)) <> None) ->
  let n := Z.to_nat (PUBLISH_INTERVAL config) in
  let ticks := List.concat (map (tick_events config)
                                (map (probe_result env) (seq (n_probe w) n))) in
  let w2 := snd ((publishing_ ;; waiting config env) w) in
  fst ((publishing_ ;; waiting config env) w) = Ret tt /\
  trace w2 = trace w ++ phase_events w ++ ticks /\
  count is_publish (phase_events w) = 2%nat /\
  n_probe w2 = (n_probe w + n)%nat /\
  n_publish w2 = (n_publish w + 2)%nat /\
  n_sensor w2 = (n_sensor w + if SENSOR_IN_USE config then 1 else 0)%nat.
Proof.
  intros [m Hm] Hp1 Hp2 Hrep. cbn zeta.
  assert (Hrun : publishing_ w = (Ret tt, snd (publishing_ w)) /\
                 n_sensor (snd (publishing_ w))
                 = (n_sensor w + if SENSOR_IN_USE config then 1 else 0)%nat).
  { destruct w as [tr np npub ns na nc].
    unfold readings_of in Hm. cbn [n_sensor n_publish] in *.
    unfold publishing, read_measurements, bind, time_time, ret, ReadTemperature,
      mqtt_publish, try_except, mqtt_client_publish, call, sys_exit, raise.
    destruct (SENSOR_IN_USE config); world_step.
    - rewrite Hm. world_step. rewrite Hp1. world_step. rewrite Hp2. world_step.
      split; [reflexivity | lia].
    - rewrite Hp1. world_step. rewrite Hp2. world_step.
      split; [reflexivity | lia]. }
  destruct Hrun as [Hrun Hns].
  destruct (publishing_run config env boot_time mac_address ip_address w)
    as (_ & Htr & Hn & Hpr).
  assert (Hmade : publishes_made config env w = 2%nat)
    by (unfold publishes_made; rewrite Hm, Hp1; reflexivity).
  assert (Hcount : count is_publish (phase_events w) = 2%nat).
  { unfold publishing_events, sampling_events. rewrite Hm, Hp1.
    destruct (SENSOR_IN_USE config); reflexivity. }
  set (w1 := snd (publishing_ w)) in *.
  unfold bind. rewrite Hrun.
  rewrite <- Hpr in Hrep.
  destruct (wait_all_report env _ _ Hrep) as [Hout Hlen].
  rewrite waiting_run. cbn [fst snd].
  rewrite (wait_probes_seq env _ (n_probe w1)), Hlen, Hpr.
  unfold after_probes. cbn [trace n_probe n_publish n_sensor].
  rewrite length_map, length_seq, Htr, Hn, Hmade, Hns, <- app_assoc.
  rewrite <- Hpr, Hout. repeat split; try reflexivity; assumption.
Qed.

End Cycles.

(** X6.  As long as every probe reports Reachable or Unreachable, every
    publish returns and the sensor answers, the main loop does not end: each
    iteration publishes twice and runs PUBLISH_INTERVAL ticks, and the
    watchdog is fed once for each Reachable probe, so not at all while the
    broker stays out of reach. *)
Theorem main_loop_keeps_running
        (config : Config) (env : Env) (boot_time : Z) (mac_address ip_address : string)
        (fuel : nat) (w : World) :
  (forall k, probe_report (probe_result env k) <> None) ->
  (forall k, publish_result env k = None) ->
  (SENSOR_IN_USE config = true -> forall k, exists m, sensor_result env k = inr m) ->
  let n := Z.to_nat (PUBLISH_INTERVAL config) in
  let r := main_loop config env boot_time mac_address ip_address fuel w in
  let new := new_events w (snd r) in
  fst r = Fuel /\
  count is_publish new = (2 * fuel)%nat /\
  count is_sleep new = (fuel * n)%nat /\
  count is_feed new
  = List.length (filter is_reachable (map (probe_result env) (seq (n_probe w) (fuel * n)))).
Proof.
  intros Hprobe Hpub Hsens. cbn zeta.
  set (n := Z.to_nat (PUBLISH_INTERVAL config)).
  assert (Hgen : forall w,
             fst (main_loop config env boot_time mac_address ip_address fuel w) = Fuel /\
             exists l,
               trace (snd (main_loop config env boot_time mac_address ip_address fuel w))
               = trace w ++ l /\
               count is_publish l = (2 * fuel)%nat /\
               count is_sleep l = (fuel * n)%nat /\
               count is_feed l
               = List.length (filter is_reachable
                                     (map (probe_result env) (seq (n_probe w) (fuel * n))))).
  { clear w. induction fuel as [|fuel IH]; intros w.
    - split; [reflexivity|]. exists []. cbn. rewrite app_nil_r. auto.
    - assert (Hm : exists m, readings_of config env w = inr m).
      { unfold readings_of. destruct (SENSOR_IN_USE config) eqn:Hs;
          [apply (Hsens eq_refl) | eexists; reflexivity]. }
      destruct (iteration_run config env boot_time mac_address ip_address w Hm
                  (Hpub _) (Hpub _) (fun t _ => Hprobe _))
        as (Hret & Htr & Hcp & Hnp & _).
      cbn zeta in *. fold n in Htr, Hnp.
      change (main_loop config env boot_time mac_address ip_address (S fuel) w)
        with (bind (publishing config env boot_time mac_address ip_address)
                (fun _ => bind (waiting config env)
                            (fun _ => main_loop config env boot_time mac_address
                                                ip_address fuel)) w).
      assert (Hassoc : bind (publishing config env boot_time mac_address ip_address)
                         (fun _ => bind (waiting config env)
                            (fun _ => main_loop config env boot_time mac_address
                                                ip_address fuel)) w
                       = bind (bind (publishing config env boot_time mac_address ip_address)
                                    (fun _ => waiting config env))
                              (fun _ => main_loop config env boot_time mac_address
                                                  ip_address fuel) w).
      { unfold bind.
        destruct (publishing config env boot_time mac_address ip_address w)
          as [[[]|x| | ] w1]; try reflexivity;
          destruct (waiting config env w1) as [[[]|x| | ] w2]; reflexivity. }
      rewrite Hassoc, bind_go by exact Hret.
      set (w2 := snd (bind (publishing config env boot_time mac_address ip_address)
                           (fun _ => waiting config env) w)) in *.
      destruct (IH w2) as (Hf & l & Hl & H1 & H2 & H3).
      split; [exact Hf|].
      exists ((publishing_events config env boot_time mac_address ip_address w
               ++ List.concat (map (tick_events config)
                                   (map (probe_result env) (seq (n_probe w) n)))) ++ l).
      split; [rewrite Hl, Htr, <- !app_assoc; reflexivity|].
      rewrite !count_app, H1, H2, H3, Hcp, Hnp.
      rewrite count_ticks_sleep, count_ticks_feed, length_map, length_seq.
      rewrite !phase_events_count by reflexivity.
      rewrite (count_ticks_none config is_publish) by reflexivity.
      replace (S fuel * n)%nat with (n + fuel * n)%nat by lia.
      rewrite seq_app, map_app, filter_app, length_app.
      repeat split; lia. }
  destruct (Hgen w) as (Hf & l & Hl & H1 & H2 & H3).
  rewrite (new_events_app _ _ _ Hl). auto.
Qed.

Lemma main_loop_keeps_running_witness :
  fst (main_loop demo_config lossy_env 900 "28cdc1aabbcc" "192.168.1.23" 2 boot_world) = Fuel /\
  count is_feed
    (new_events boot_world
       (snd (main_loop demo_config lossy_env 900 "28cdc1aabbcc" "192.168.1.23" 2 boot_world)))
  = 1%nat.
Proof.
  assert (H1 : forall k, probe_report (probe_result lossy_env k) <> None)
    by (intros k; destruct k; cbn; discriminate).
  assert (H2 : forall k, publish_result lossy_env k = None) by reflexivity.
  assert (H3 : SENSOR_IN_USE demo_config = true ->
               forall k, exists m, sensor_result lossy_env k = inr m)
    by (intros _ k; eexists; reflexivity).
  destruct (main_loop_keeps_running demo_config lossy_env 900 "28cdc1aabbcc" "192.168.1.23"
              2 boot_world H1 H2 H3) as (Hf & _ & _ & Hfeed).
  split; [exact Hf|]. rewrite Hfeed. reflexivity.
Defined.

(** ** Failures inside the main loop *)

Lemma publishing_returns
      (config : Config) (env : Env) (boot_time : Z) (mac_address ip_address : string)
      (w : World) :
  (exists m, readings_of config env w = inr m) ->
  publish_result env (n_publish w) = None ->
  publish_result env (S (n_publish w)) = None ->
  fst (publishing config env boot_time mac_address ip_address w) = Ret tt.
Proof.
  intros [m Hm] H1 H2.
  destruct (publishing_run config env boot_time mac_address ip_address w) as (Hout & _).
  rewrite Hout. unfold publishing_outcome. rewrite Hm, H1, H2. reflexivity.
Qed.

Definition with_sensor (f : nat -> exn + (Q * Q)) (e : Env) : Env :=
  mkEnv (connect_result e) (sensor_init_result e) (probe_result e) (publish_result e)
        (disconnect_result e) f (adc_result e) (clock_result e).



(** X10.  When [mqtt_client.publish] raises, [mqtt_publish] has made that one
    call and no other, and what leaves it is never an [Exception]: a failure
    of class [Exception] leaves as [SystemExit], any other as itself.  The
    [except Exception] clause of the main loop therefore never handles a
    publish failure.  The topic passed to [mqtt_publish] plays no part. *)
Theorem publish_failure_is_not_an_Exception
        (config : Config) (env : Env) (w : World) (topic category message : string)
        (e : exn) :
  publish_result env (n_publish w) = Some e ->
  let r := mqtt_publish config env topic category message w in
  fst r = Raise (if is_Exception e then SystemExit else e) /\
  (forall x, fst r = Raise x -> is_Exception x = false) /\
  new_events w (snd r)
  = [EvMqttPublish (MQTT_PUBLISH_TOPIC config) (format_message config category message)] /\
  forall topic', mqtt_publish config env topic' category message w = r.
Proof.
  intros He. cbn zeta. rewrite mqtt_publish_run, He. cbn [fst snd publish_outcome].
  split; [destruct (is_Exception e); reflexivity|].
  split.
  { intros x Hx. destruct (is_Exception e) eqn:Hex; injection Hx as <-;
      [reflexivity | exact Hex]. }
  split; [apply new_events_app; reflexivity|].
  intros topic'. rewrite mqtt_publish_run, He. reflexivity.
Qed.

Lemma publish_failure_is_not_an_Exception_witness :
  publish_result broken_link_env 0 = Some (OSError 104) /\
  fst (mqtt_publish demo_config broken_link_env "ignored" "telemetry" "x=1" boot_world)
  = Raise SystemExit.
Proof.
  split; [reflexivity|].
  destruct (publish_failure_is_not_an_Exception demo_config broken_link_env boot_world
              "ignored" "telemetry" "x=1" (OSError 104) eq_refl) as [Hfst _].
  exact Hfst.
Defined.

(** ** The uptime string *)

Definition uptime_char (c : ascii) : bool :=
  is_digit c || Ascii.eqb c ":" || Ascii.eqb c "-".

Lemma nilzero_uint_digits (d : Decimal.uint) :
  all_chars is_digit (NilZero.string_of_uint d) = true.
Proof. destruct d; cbn; auto using string_of_uint_digits. Qed.

Lemma str_int_chars (z : Z) : all_chars uptime_char (str_int z) = true.
Proof.
  unfold str_int, NilZero.string_of_int.
  destruct (Z.to_int z) as [d|d]; cbn [all_chars].
  - apply (all_chars_weaken is_digit); [|apply nilzero_uint_digits].
    intros c Hc. unfold uptime_char. rewrite Hc. reflexivity.
  - apply andb_true_iff. split; [reflexivity|].
    apply (all_chars_weaken is_digit); [|apply nilzero_uint_digits].
    intros c Hc. unfold uptime_char. rewrite Hc. reflexivity.
Qed.

Lemma fmt_02d_chars (z : Z) : all_chars uptime_char (fmt_02d z) = true.
Proof.
  unfold fmt_02d. destruct ((0 <=? z) && (z <? 10))%Z%bool; [|apply str_int_chars].
  cbn [append all_chars]. rewrite str_int_chars. reflexivity.
Qed.

Lemma fmt_02d_length (z : Z) : (0 <= z < 100)%Z -> String.length (fmt_02d z) = 2%nat.
Proof.
  intros Hz.
  assert (Hall : forallb (fun k => Nat.eqb (String.length (fmt_02d (Z.of_nat k))) 2)
                         (seq 0 100) = true) by (vm_compute; reflexivity).
  rewrite forallb_forall in Hall.
  specialize (Hall (Z.to_nat z)). rewrite Z2Nat.id in Hall by lia.
  apply Nat.eqb_eq, Hall, in_seq. lia.
Qed.

(** X11.  [CalcUptime] splits the seconds since boot exactly: the string is
    days, hours, minutes and seconds joined by colons, the last three always
    two digits wide and in range (0-23, 0-59, 0-59), also when the clock
    reads less than the boot time; then only the days are negative. *)
Theorem CalcUptime_splits_elapsed_seconds (boot_time t : Z) :
  exists days hours minutes seconds : Z,
    CalcUptime boot_time t
    = (str_int days ++ ":" ++ fmt_02d hours ++ ":" ++ fmt_02d minutes
               ++ ":" ++ fmt_02d seconds)%string /\
    (0 <= hours < 24)%Z /\ (0 <= minutes < 60)%Z /\ (0 <= seconds < 60)%Z /\
    (days * 86400 + hours * 3600 + minutes * 60 + seconds = t - boot_time)%Z /\
    (0 <= days <-> boot_time <= t)%Z /\
    String.length (fmt_02d hours) = 2%nat /\
    String.length (fmt_02d minutes) = 2%nat /\
    String.length (fmt_02d seconds) = 2%nat.
Proof.
  set (td := (t - boot_time)%Z).
  exists (td / 60 / 60 / 24)%Z, ((td / 60 / 60) mod 24)%Z, ((td / 60) mod 60)%Z,
         (td mod 60)%Z.
  pose proof (Z.mod_pos_bound (td / 60 / 60) 24 ltac:(lia)) as Hh.
  pose proof (Z.mod_pos_bound (td / 60) 60 ltac:(lia)) as Hm.
  pose proof (Z.mod_pos_bound td 60 ltac:(lia)) as Hs.
  pose proof (Z.div_mod td 60 ltac:(lia)) as E1.
  pose proof (Z.div_mod (td / 60) 60 ltac:(lia)) as E2.
  pose proof (Z.div_mod (td / 60 / 60) 24 ltac:(lia)) as E3.
  split; [reflexivity|].
  split; [exact Hh|]. split; [exact Hm|]. split; [exact Hs|].
  split; [lia|].
  split; [unfold td in *; lia|].
  repeat split; apply fmt_02d_length; lia.
Qed.

(** X12.  The uptime string holds digits, colons and at most a minus sign:
    no double quote, comma or space, so it cannot break the quoted field of
    the telemetry line it is written into. *)
Theorem CalcUptime_is_plain (boot_time t : Z) :
  all_chars uptime_char (CalcUptime boot_time t) = true /\
  lacks (ascii_of_nat 34) (CalcUptime boot_time t) = true /\
  lacks "," (CalcUptime boot_time t) = true /\
  lacks " " (CalcUptime boot_time t) = true.
Proof.
  assert (H : all_chars uptime_char (CalcUptime boot_time t) = true).
  { unfold CalcUptime. rewrite !all_chars_app, str_int_chars, !fmt_02d_chars. reflexivity. }
  split; [exact H|].
  repeat split; unfold lacks; apply (all_chars_weaken uptime_char); try exact H;
    intros c Hc; apply negb_true_iff, Ascii.eqb_neq; intros ->; discriminate Hc.
Qed.

(** ** Rounding to one decimal *)

(** What [round_half_even] returns: an integer within one half of [q], an
    even one when [q] lies half way. *)
Lemma round_half_even_spec (q : Q) :
  let z := round_half_even q in
  let delta := (2 * (z * Zpos (Qden q) - Qnum q))%Z in
  (- Zpos (Qden q) <= delta <= Zpos (Qden q))%Z /\
  (delta = Zpos (Qden q) \/ delta = (- Zpos (Qden q))%Z -> Z.even z = true).
Proof.
  cbn zeta. unfold round_half_even.
  destruct q as [n d]. cbn [Qnum Qden].
  pose proof (Z.div_mod n (Zpos d) ltac:(lia)) as Hdm.
  pose proof (Z.mod_pos_bound n (Zpos d) ltac:(lia)) as Hmod.
  set (f := (n / Zpos d)%Z) in *. set (r := (n mod Zpos d)%Z) in *.
  assert (Hfd : (f * Zpos d = n - r)%Z) by lia.
  destruct (Z.compare_spec (2 * r) (Zpos d)) as [Heq|Hlt|Hgt].
  - destruct (Z.even f) eqn:Hev.
    + split; [lia|]. intros _. exact Hev.
    + split; [lia|]. intros _. rewrite Z.even_add, Hev. reflexivity.
  - split; [lia|]. intros [H|H]; lia.
  - split; [lia|]. intros [H|H]; lia.
Qed.

Lemma round_half_even_monotone (p q : Q) :
  (p <= q)%Q -> (round_half_even p <= round_half_even q)%Z.
Proof.
  intros Hle. unfold Qle in Hle.
  destruct (round_half_even_spec p) as [Hp Hpe].
  destruct (round_half_even_spec q) as [Hq Hqe].
  cbn zeta in *.
  set (z1 := round_half_even p) in *. set (z2 := round_half_even q) in *.
  set (d1 := Zpos (Qden p)) in *. set (d2 := Zpos (Qden q)) in *.
  set (n1 := Qnum p) in *. set (n2 := Qnum q) in *.
  assert (Hd1 : (0 < d1)%Z) by (unfold d1; lia).
  assert (Hd2 : (0 < d2)%Z) by (unfold d2; lia).
  destruct (Z_le_gt_dec z1 z2) as [H|H]; [exact H|exfalso].
  assert (Hz : (z2 + 1 <= z1)%Z) by lia.
  assert (A : (2 * z1 * d1 * d2 - 2 * n1 * d2 <= d1 * d2)%Z) by nia.
  assert (B : (- (d1 * d2) <= 2 * z2 * d1 * d2 - 2 * n2 * d1)%Z) by nia.
  assert (Hdd : (0 < d1 * d2)%Z) by nia.
  assert (Hz1 : z1 = (z2 + 1)%Z) by nia.
  assert (Hn : (n1 * d2 = n2 * d1)%Z) by nia.
  assert (T1 : (2 * (z1 * d1 - n1) = d1)%Z) by nia.
  assert (T2 : (2 * (z2 * d2 - n2) = - d2)%Z) by nia.
  pose proof (Hpe (or_introl T1)) as E1.
  pose proof (Hqe (or_intror T2)) as E2.
  rewrite Hz1, Z.even_add, E2 in E1. discriminate E1.
Qed.

Lemma tenths_monotone (x y : Q) : (x <= y)%Q -> (tenths x <= tenths y)%Z.
Proof.
  intros H. unfold tenths. apply round_half_even_monotone.
  apply Qmult_le_compat_r; [exact H | discriminate].
Qed.

(** The tenths a rounded float stands for, with its sign. *)
Definition dec1_tenths (d : dec1) : Z :=
  if d_neg d then (- Z.of_N (d_mag d))%Z else Z.of_N (d_mag d).

(** X13.  [round(x, 1)] and the format [.1f] give the nearest tenth: the
    rounded value is within half a tenth of [x], rounding never reverses the
    order of two values, and the sign written is the sign of [x]. *)
Theorem round1_is_nearest_tenth (x y : Q) :
  (x * (10 # 1) - (1 # 2) <= inject_Z (dec1_tenths (round1 x)))%Q /\
  (inject_Z (dec1_tenths (round1 x)) <= x * (10 # 1) + (1 # 2))%Q /\
  ((x <= y)%Q -> (dec1_tenths (round1 x) <= dec1_tenths (round1 y))%Z) /\
  (d_neg (round1 x) = true <-> (x < 0)%Q) /\
  fmt_1f x = str_dec1 (round1 x).
Proof.
  unfold dec1_tenths. rewrite !round1_value.
  assert (Hb : (x * (10 # 1) - (1 # 2) <= inject_Z (tenths x))%Q /\
               (inject_Z (tenths x) <= x * (10 # 1) + (1 # 2))%Q).
  { unfold tenths.
    destruct (round_half_even_spec (x * (10 # 1))) as [Hb _]. cbn zeta in Hb.
    set (q := (x * (10 # 1))%Q) in *. set (z := round_half_even q) in *.
    unfold Qle, Qminus, Qplus, Qopp, inject_Z.
    destruct q as [n d]. cbn [Qnum Qden] in *.
    split; nia. }
  destruct Hb as [Hb1 Hb2].
  split; [exact Hb1|]. split; [exact Hb2|].
  split; [apply tenths_monotone|].
  split; [|reflexivity].
  unfold round1. cbn [d_neg]. unfold Qlt. cbn [Qnum Qden].
  rewrite Z.ltb_lt. lia.
Qed.

(** ** The internal temperature *)

(** The value of lines 51-52 before rounding. *)
Definition raw_temperature (adc_value : Z) : Q :=
  ((27 # 1) - (((33 # 10) / (65535 # 1)) * inject_Z adc_value - (706 # 1000))
              / (1721 # 1000000))%Q.

Lemma raw_temperature_antitone (a b : Z) :
  (a <= b)%Z -> (raw_temperature b <= raw_temperature a)%Q.
Proof.
  intros H. unfold raw_temperature, Qminus, Qdiv.
  apply Qplus_le_r. apply Qopp_le_compat.
  apply Qmult_le_compat_r; [|discriminate].
  apply Qplus_le_l. apply Qmult_le_l; [reflexivity|].
  rewrite <- Zle_Qle. exact H.
Qed.

(** X14.  [ReadTemperature] returns the ADC reading converted and rounded to
    a tenth of a degree.  A higher ADC count never gives a higher
    temperature, and for the 16-bit counts [read_u16] returns the result
    lies between -1480.3 and 437.2 degrees. *)
Theorem ReadTemperature_range (env : Env) (w : World) (adc1 adc2 : Z) :
  (0 <= adc1 <= adc2)%Z -> (adc2 <= 65535)%Z ->
  fst (ReadTemperature env w) = Ret (internal_temperature (adc_result env (n_adc w))) /\
  count is_feed (new_events w (snd (ReadTemperature env w))) = 0%nat /\
  (-14803 <= dec1_tenths (internal_temperature adc2))%Z /\
  (dec1_tenths (internal_temperature adc2) <= dec1_tenths (internal_temperature adc1))%Z /\
  (dec1_tenths (internal_temperature adc1) <= 4372)%Z.
Proof.
  intros H1 H2.
  assert (Hval : forall a, dec1_tenths (internal_temperature a) = tenths (raw_temperature a)).
  { intros a. unfold dec1_tenths, internal_temperature. rewrite round1_value. reflexivity. }
  assert (Hanti : forall a b, (a <= b)%Z ->
                              (tenths (raw_temperature b) <= tenths (raw_temperature a))%Z).
  { intros a b Hab. apply tenths_monotone, raw_temperature_antitone. exact Hab. }
  split; [reflexivity|].
  split.
  { rewrite ReadTemperature_run. cbn [snd].
    rewrite (new_events_app w _ [EvAdcRead]) by reflexivity. reflexivity. }
  rewrite !Hval.
  assert (Hlo : tenths (raw_temperature 65535) = (-14803)%Z) by (vm_compute; reflexivity).
  assert (Hhi : tenths (raw_temperature 0) = 4372%Z) by (vm_compute; reflexivity).
  pose proof (Hanti adc2 65535%Z H2).
  pose proof (Hanti adc1 adc2 ltac:(lia)).
  pose proof (Hanti 0%Z adc1 ltac:(lia)).
  lia.
Qed.

Lemma ReadTemperature_range_witness :
  (0 <= 14000 <= 14100)%Z /\
  (dec1_tenths (internal_temperature 14100) <= dec1_tenths (internal_temperature 14000))%Z.
Proof.
  assert (H1 : (0 <= 14000 <= 14100)%Z) by lia.
  assert (H2 : (14100 <= 65535)%Z) by lia.
  split; [exact H1|].
  destruct (ReadTemperature_range calm_env boot_world 14000 14100 H1 H2)
    as (_ & _ & _ & Hmono & _).
  exact Hmono.
Defined.

(** ** Joining the wireless network (lines 93-110) *)

Inductive wlan_event : Type :=
| WlanActive (on : bool)                   (* wlan.active(True) *)
| WlanConnect (ssid password : string)     (* wlan.connect(ssid, password) *)
| WlanSleep (seconds : Z)                  (* time.sleep(...) *)
| WlanIsConnected (answer : bool)          (* wlan.isconnected() *)
| WlanIfconfig                             (* wlan.ifconfig() *)
| WlanConfigMac.                           (* wlan.config('mac') *)

Section WiFi.

Variable wifi_ssid : string.               (* line 90 *)
Variable wifi_password : string.           (* line 91 *)
Variable connect_raises : nat -> option exn.   (* the k-th wlan.connect *)
Variable isconnected : nat -> bool.            (* the k-th wlan.isconnected() *)

(** Lines 97-107: what is left of [for _ in range(10)] with [remaining]
    rounds to go, [k] rounds done.  The result is the exception that ended
    the loop, if any, with the calls made. *)
Fixpoint wifi_attempts (remaining k : nat) : option exn * list wlan_event :=
  match remaining with
  | O => (None, [])
  | S remaining' =>
      match connect_raises k with
      | Some e => (Some e, [WlanConnect wifi_ssid wifi_password])
      | None =>
          if isconnected k
          then (None, [WlanConnect wifi_ssid wifi_password; WlanSleep 1; WlanIsConnected true])
          else let (r, evs) := wifi_attempts remaining' (S k) in
               (r, WlanConnect wifi_ssid wifi_password :: WlanSleep 1
                   :: WlanIsConnected false :: WlanSleep 11 :: evs)
      end
  end.

(** Lines 94-110. *)
Definition wifi_bringup : option exn * list wlan_event :=
  let (r, evs) := wifi_attempts 10 0 in
  match r with
  | Some e => (Some e, WlanActive true :: evs)
  | None => (None, WlanActive true :: evs ++ [WlanIfconfig; WlanConfigMac])
  end.

Definition wlan_connects (l : list wlan_event) : nat :=
  List.length (filter (fun e => match e with WlanConnect _ _ => true | _ => false end) l).

Fixpoint wlan_slept (l : list wlan_event) : Z :=
  match l with
  | [] => 0
  | WlanSleep s :: l' => s + wlan_slept l'
  | _ :: l' => wlan_slept l'
  end.

(** The first round, from [k] on and among [n], whose link check succeeds. *)
Fixpoint first_link (n k : nat) : option nat :=
  match n with
  | O => None
  | S n' => if isconnected k then Some k else first_link n' (S k)
  end.

Lemma wifi_attempts_bounds (n k : nat) :
  (wlan_connects (snd (wifi_attempts n k)) <= n)%nat /\
  (0 <= wlan_slept (snd (wifi_attempts n k)) <= 12 * Z.of_nat n)%Z.
Proof.
  revert k. induction n as [|n IH]; intros k; [cbn; lia|].
  cbn [wifi_attempts].
  destruct (connect_raises k); [cbn; lia|].
  destruct (isconnected k); [cbn; lia|].
  specialize (IH (S k)). destruct (wifi_attempts n (S k)) as [r evs].
  cbn [snd] in *. unfold wlan_connects in *. cbn [filter List.length wlan_slept]. lia.
Qed.

Lemma wifi_attempts_run (n k : nat) :
  (forall j, connect_raises j = None) ->
  fst (wifi_attempts n k) = None /\
  match first_link n k with
  | Some j =>
      wlan_connects (snd (wifi_attempts n k)) = S (j - k) /\
      wlan_slept (snd (wifi_attempts n k)) = (12 * Z.of_nat (j - k) + 1)%Z /\
      (k <= j < k + n)%nat /\ isconnected j = true
  | None =>
      wlan_connects (snd (wifi_attempts n k)) = n /\
      wlan_slept (snd (wifi_attempts n k)) = (12 * Z.of_nat n)%Z /\
      forall j, (k <= j < k + n)%nat -> isconnected j = false
  end.
Proof.
  intros Hc. revert k. induction n as [|n IH]; intros k.
  - cbn. repeat split. intros j Hj. lia.
  - cbn [wifi_attempts first_link]. rewrite Hc.
    destruct (isconnected k) eqn:Hk.
    + cbn. rewrite Nat.sub_diag. repeat split; try reflexivity; try lia. exact Hk.
    + specialize (IH (S k)). destruct (wifi_attempts n (S k)) as [r evs].
      cbn [fst snd] in *. destruct IH as [Hr IH]. split; [exact Hr|].
      unfold wlan_connects in *. cbn [filter List.length wlan_slept].
      destruct (first_link n (S k)) as [j|].
      * destruct IH as (H1 & H2 & H3 & H4).
        replace (j - k)%nat with (S (j - S k)) by lia.
        repeat split; try lia; exact H4.
      * destruct IH as (H1 & H2 & H3).
        repeat split; try lia.
        intros j Hj. destruct (Nat.eq_dec j k) as [->|Hne]; [exact Hk | apply H3; lia].
Qed.

End WiFi.

(** X15.  The loop of lines 97-107 tries to join the network at most ten
    times and sleeps at most 120 s.  Unless [wlan.connect] raises, it stops
    after the first round whose link check succeeds (1 s into that round, 12 s
    per failed round before it); after ten failed rounds it gives up without
    an error, and the script goes on to read the interface address all the
    same. *)
Theorem wifi_loop_tries_ten_times
        (wifi_ssid wifi_password : string)
        (connect_raises : nat -> option exn) (isconnected : nat -> bool) :
  let run := wifi_attempts wifi_ssid wifi_password connect_raises isconnected 10 0 in
  let boot := wifi_bringup wifi_ssid wifi_password connect_raises isconnected in
  (wlan_connects (snd run) <= 10)%nat /\
  (0 <= wlan_slept (snd run) <= 120)%Z /\
  ((forall j, connect_raises j = None) ->
   fst run = None /\
   boot = (None, WlanActive true :: snd run ++ [WlanIfconfig; WlanConfigMac]) /\
   match first_link isconnected 10 0 with
   | Some j =>
       isconnected j = true /\ (j < 10)%nat /\
       wlan_connects (snd run) = S j /\
       wlan_slept (snd run) = (12 * Z.of_nat j + 1)%Z
   | None =>
       (forall j, (j < 10)%nat -> isconnected j = false) /\
       wlan_connects (snd run) = 10%nat /\
       wlan_slept (snd run) = 120%Z
   end).
Proof.
  cbn zeta.
  destruct (wifi_attempts_bounds wifi_ssid wifi_password connect_raises isconnected 10 0)
    as [Hb1 Hb2].
  split; [exact Hb1|]. split; [lia|].
  intros Hc.
  destruct (wifi_attempts_run wifi_ssid wifi_password connect_raises isconnected 10 0 Hc)
    as [Hr Hrun].
  split; [exact Hr|]. split.
  { unfold wifi_bringup.
    destruct (wifi_attempts wifi_ssid wifi_password connect_raises isconnected 10 0)
      as [r evs]. cbn [fst snd] in *. rewrite Hr. reflexivity. }
  destruct (first_link isconnected 10 0) as [j|].
  - destruct Hrun as (H1 & H2 & H3 & H4). rewrite Nat.sub_0_r in *.
    repeat split; try assumption; lia.
  - destruct Hrun as (H1 & H2 & H3).
    repeat split; try assumption. intros j Hj. apply H3. lia.
Qed.

(** ** A failure in any iteration *)

Section LaterFailures.

Variable config : Config.
Variable env : Env.
Variable boot_time : Z.
Variable mac_address : string.
Variable ip_address : string.

Local Abbreviation publishing_ := (publishing config env boot_time mac_address ip_address).
Local Abbreviation main_loop_ := (main_loop config env boot_time mac_address ip_address).
Local Abbreviation phase_events :=
  (publishing_events config env boot_time mac_address ip_address).

(** A Publishing phase reads the sensor once when there is one. *)
Lemma publishing_n_sensor (w : World) :
  n_sensor (snd (publishing_ w))
  = (n_sensor w + if SENSOR_IN_USE config then 1 else 0)%nat.
Proof.
  destruct w as [tr np npub ns na nc].
  unfold publishing, read_measurements, bind, time_time, ret, ReadTemperature,
    mqtt_publish, try_except, mqtt_client_publish, call, sys_exit, raise.
  destruct (SENSOR_IN_USE config); world_step;
    [destruct (sensor_result env ns) as [e|m]; world_step|];
    try (destruct (publish_result env npub) as [e1|]; world_step;
         [destruct (is_Exception e1)
         |destruct (publish_result env (S npub)) as [e2|];
          [destruct (is_Exception e2)|]]);
    world_step; lia.
Qed.

Lemma phase_events_no_reset (w : World) : count is_reset (phase_events w) = 0%nat.
Proof. apply phase_events_count; reflexivity. Qed.

(** Once some read of the sensor has failed, the main loop has stopped
    behind it. *)
Lemma main_loop_stops_at_failed_read (fuel : nat) :
  forall (w : World) (k : nat) (e : exn),
    SENSOR_IN_USE config = true ->
    sensor_result env k = inl e ->
    (n_sensor w <= k)%nat ->
    exists l : list event,
      trace (snd (main_loop_ fuel w)) = trace w ++ l /\
      count is_reset l = 0%nat /\
      (n_sensor (snd (main_loop_ fuel w)) <= S k)%nat /\
      (n_sensor (snd (main_loop_ fuel w)) = S k ->
       fst (main_loop_ fuel w) = Raise e /\
       exists l0, l = l0 ++ [EvSensorRead]).
Proof.
  induction fuel as [|fuel IH]; intros w k e Hs He Hk.
  - exists []. cbn. rewrite app_nil_r. repeat split; try lia.
  - cbn [main_loop].
    destruct (publishing_run config env boot_time mac_address ip_address w)
      as (Hout & Htr & _ & _).
    pose proof (publishing_n_sensor w) as Hns. rewrite Hs in Hns.
    pose proof (phase_events_no_reset w) as Hnr.
    destruct (readings_of config env w) as [e0|m] eqn:Hread.
    + (* this read fails *)
      assert (Hpo : publishing_outcome config env w = Raise e0)
        by (unfold publishing_outcome; rewrite Hread; reflexivity).
      rewrite Hpo in Hout.
      rewrite bind_stop by (intros a; rewrite Hout; discriminate).
      exists (phase_events w).
      split; [exact Htr|]. split; [exact Hnr|]. split; [lia|].
      intros Hreach. rewrite Hout.
      assert (Hidx : n_sensor w = k) by lia.
      unfold readings_of in Hread. rewrite Hs, Hidx, He in Hread.
      injection Hread as <-. split; [reflexivity|].
      exists []. unfold publishing_events, readings_of. rewrite Hs, Hidx, He. reflexivity.
    + (* this read returns: it is not the failing one *)
      assert (Hlt : (n_sensor w < k)%nat).
      { destruct (Nat.eq_dec (n_sensor w) k) as [Heq|Hne]; [|lia].
        unfold readings_of in Hread. rewrite Hs, Heq, He in Hread. discriminate. }
      destruct (publishing_outcome_cases config env w) as [Hpo|[x Hpo]]; rewrite Hpo in Hout.
      * rewrite bind_go by exact Hout.
        set (w1 := snd (publishing_ w)) in *.
        pose proof (waiting_run config env w1) as Hw. cbn zeta in Hw.
        set (ps := wait_probes env (Z.to_nat (PUBLISH_INTERVAL config)) (n_probe w1)) in *.
        destruct (wait_outcome_cases env (Z.to_nat (PUBLISH_INTERVAL config)) (n_probe w1))
          as [Hwo|[x Hwo]]; rewrite Hwo in Hw.
        -- rewrite bind_go by (rewrite Hw; reflexivity).
           rewrite Hw. cbn [snd].
           set (w2 := after_probes _ _ w1).
           destruct (IH w2 k e Hs He) as (l & Hl1 & Hl2 & Hl3 & Hl4);
             [unfold w2, after_probes; cbn [n_sensor]; lia|].
           exists (phase_events w ++ List.concat (map (tick_events config) ps) ++ l).
           split; [rewrite Hl1; unfold w2, after_probes; cbn [trace]; rewrite Htr;
                   rewrite <- !app_assoc; reflexivity|].
           split; [rewrite !count_app, Hnr, count_reset_ticks, Hl2; reflexivity|].
           split; [exact Hl3|].
           intros Hreach. destruct (Hl4 Hreach) as [Hx (l0 & Hl0)].
           split; [exact Hx|].
           exists (phase_events w ++ List.concat (map (tick_events config) ps) ++ l0).
           rewrite Hl0, <- !app_assoc. reflexivity.
        -- rewrite bind_stop by (intros a; rewrite Hw; discriminate).
           rewrite Hw. cbn [snd fst].
           exists (phase_events w ++ List.concat (map (tick_events config) ps)).
           unfold after_probes; cbn [trace n_sensor].
           split; [rewrite Htr, <- !app_assoc; reflexivity|].
           split; [rewrite !count_app, Hnr, count_reset_ticks; reflexivity|].
           split; [lia|]. intros; lia.
      * rewrite bind_stop by (intros a; rewrite Hout; discriminate).
        exists (phase_events w).
        split; [exact Htr|]. split; [exact Hnr|]. split; [lia|]. intros; lia.
Qed.

(** The last probe of a wait that reaches the probe number [k]. *)
Lemma wait_stops_at_escaping_probe (n : nat) :
  forall (i k : nat) (e : exn),
    probe_escape (probe_result env k) = Some e ->
    (i <= k)%nat ->
    (i + List.length (wait_probes env n i) <= S k)%nat /\
    ((i + List.length (wait_probes env n i))%nat = S k ->
     wait_outcome env n i = Raise e /\
     exists ps0, wait_probes env n i = ps0 ++ [probe_result env k]).
Proof.
  induction n as [|n IH]; intros i k e He Hik; cbn [wait_probes wait_outcome].
  - cbn. split; [lia|]. intros; lia.
  - destruct (probe_escape (probe_result env i)) as [e'|] eqn:Hesc.
    + cbn [List.length]. split; [lia|]. intros Hreach.
      assert (i = k) by lia. subst i. rewrite He in Hesc. injection Hesc as <-.
      split; [reflexivity|]. exists []. reflexivity.
    + assert (Hlt : (i < k)%nat).
      { destruct (Nat.eq_dec i k) as [->|Hne]; [congruence | lia]. }
      destruct (IH (S i) k e He Hlt) as [H1 H2].
      cbn [List.length]. split; [lia|]. intros Hreach.
      destruct (H2 ltac:(lia)) as [Hout (ps0 & Hps)].
      split; [exact Hout|]. exists (probe_result env i :: ps0). rewrite Hps. reflexivity.
Qed.

(** Once an exception has escaped some probe, the main loop has stopped
    behind that tick. *)
Lemma main_loop_stops_at_escaping_probe (fuel : nat) :
  forall (w : World) (k : nat) (e : exn),
    probe_escape (probe_result env k) = Some e ->
    (n_probe w <= k)%nat ->
    exists l : list event,
      trace (snd (main_loop_ fuel w)) = trace w ++ l /\
      count is_reset l = 0%nat /\
      (n_probe (snd (main_loop_ fuel w)) <= S k)%nat /\
      (n_probe (snd (main_loop_ fuel w)) = S k ->
       fst (main_loop_ fuel w) = Raise e /\
       exists l0, l = l0 ++ tick_events config (probe_result env k)).
Proof.
  induction fuel as [|fuel IH]; intros w k e He Hk.
  - exists []. cbn. rewrite app_nil_r. repeat split; try lia.
  - cbn [main_loop].
    destruct (publishing_run config env boot_time mac_address ip_address w)
      as (Hout & Htr & _ & Hnp).
    pose proof (phase_events_no_reset w) as Hnr.
    destruct (publishing_outcome_cases config env w) as [Hpo|[x Hpo]]; rewrite Hpo in Hout.
    + rewrite bind_go by exact Hout.
      set (w1 := snd (publishing_ w)) in *.
      pose proof (waiting_run config env w1) as Hw. cbn zeta in Hw.
      set (n := Z.to_nat (PUBLISH_INTERVAL config)) in *.
      destruct (wait_stops_at_escaping_probe n (n_probe w1) k e He ltac:(lia))
        as [Hlen Hlast].
      set (ps := wait_probes env n (n_probe w1)) in *.
      destruct (wait_outcome_cases env n (n_probe w1)) as [Hwo|[x Hwo]].
      * rewrite Hwo in Hw.
        rewrite bind_go by (rewrite Hw; reflexivity).
        rewrite Hw. cbn [snd].
        set (w2 := after_probes _ _ w1).
        assert (Hw2 : (n_probe w2 <= k)%nat).
        { unfold w2. rewrite n_probe_after_probes.
          destruct (Nat.eq_dec (n_probe w1 + List.length ps) (S k)) as [Heq|Hne]; [|lia].
          destruct (Hlast Heq) as [Hraise _]. congruence. }
        destruct (IH w2 k e He Hw2) as (l & Hl1 & Hl2 & Hl3 & Hl4).
        exists (phase_events w ++ List.concat (map (tick_events config) ps) ++ l).
        split; [rewrite Hl1; unfold w2, after_probes; cbn [trace]; rewrite Htr;
                rewrite <- !app_assoc; reflexivity|].
        split; [rewrite !count_app, Hnr, count_reset_ticks, Hl2; reflexivity|].
        split; [exact Hl3|].
        intros Hreach. destruct (Hl4 Hreach) as [Hx (l0 & Hl0)].
        split; [exact Hx|].
        exists (phase_events w ++ List.concat (map (tick_events config) ps) ++ l0).
        rewrite Hl0, <- !app_assoc. reflexivity.
      * rewrite Hwo in Hw.
        rewrite bind_stop by (intros a; rewrite Hw; discriminate).
        rewrite Hw. cbn [snd fst]. rewrite n_probe_after_probes.
        exists (phase_events w ++ List.concat (map (tick_events config) ps)).
        split; [unfold after_probes; cbn [trace]; rewrite Htr, <- !app_assoc; reflexivity|].
        split; [rewrite !count_app, Hnr, count_reset_ticks; reflexivity|].
        split; [lia|].
        intros Hreach. destruct (Hlast Hreach) as [Hraise (ps0 & Hps)].
        split; [congruence|].
        exists (phase_events w ++ List.concat (map (tick_events config) ps0)).
        fold ps in Hps. rewrite Hps, map_app, concat_app. cbn [map List.concat].
        rewrite app_nil_r, <- !app_assoc. reflexivity.
    + rewrite bind_stop by (intros a; rewrite Hout; discriminate).
      exists (phase_events w).
      split; [exact Htr|]. split; [exact Hnr|]. split; [lia|]. intros; lia.
Qed.

End LaterFailures.

(** X7.  When a read of the sensor raises, whatever the exception and in
    whichever iteration, nothing is published after it: the failing read is
    followed at once by [disconnect()] and then by [machine.reset()], unless
    [disconnect()] raises, and no reset was requested before. *)
Theorem sensor_failure_ends_run
        (config : Config) (env : Env) (boot_time : Z) (mac_address ip_address : string)
        (fuel : nat) (w : World) (k : nat) (e : exn) :
  connect_result env = None ->
  SENSOR_IN_USE config = true ->
  sensor_init_result env = None ->
  sensor_result env k = inl e ->
  (n_sensor w <= k)%nat ->
  let r := main config env boot_time mac_address ip_address fuel w in
  (n_sensor (snd r) <= S k)%nat /\
  (n_sensor (snd r) = S k ->
   exists pre : list event,
     new_events w (snd r)
     = pre ++ [EvSensorRead; EvMqttDisconnect]
           ++ match disconnect_result env with None => [EvReset] | Some _ => [] end /\
     count is_reset pre = 0%nat /\
     fst r = match disconnect_result env with None => Halt | Some e' => Raise e' end).
Proof.
  intros Hc Hs Hi He Hk. cbn zeta.
  rewrite (main_after_boot config env boot_time mac_address ip_address fuel w Hc
             (fun _ => Hi)).
  destruct (main_loop_stops_at_failed_read config env boot_time mac_address ip_address
              fuel (booted config w) k e Hs He Hk) as (l & Hl1 & Hl2 & Hl3 & Hl4).
  destruct (main_loop config env boot_time mac_address ip_address fuel (booted config w))
    as [r1 w1] eqn:Hrun.
  cbn [fst snd] in *.
  assert (Hboot : trace w1 = trace w ++ boot_events config ++ l).
  { rewrite Hl1. unfold booted, boot_events. cbn [trace]. rewrite <- !app_assoc.
    reflexivity. }
  assert (Hns : n_sensor (snd (unwind env (r1, w1))) = n_sensor w1).
  { unfold unwind. destruct r1; destruct (disconnect_result env); reflexivity. }
  rewrite Hns. split; [exact Hl3|].
  intros Hreach. destruct (Hl4 Hreach) as [Hx (l0 & Hl0)]. subst r1 l.
  exists (boot_events config ++ l0).
  rewrite count_app in Hl2.
  split; [|split].
  - unfold unwind. destruct (disconnect_result env);
      apply new_events_app; unfold emit; cbn [trace]; rewrite Hboot, <- !app_assoc;
      reflexivity.
  - rewrite count_app, count_boot_events by reflexivity. cbn [is_reset]. lia.
  - unfold unwind. destruct (disconnect_result env); reflexivity.
Qed.

(** The sensor answers the first read and fails (EIO) on the second. *)
Definition flaky_sensor_env : Env :=
  with_sensor (fun k => match k with
                        | 1%nat => inl (OSError 5)
                        | _ => inr ((224 # 10)%Q, (613 # 10)%Q)
                        end) calm_env.

Definition sensor_config : Config :=
  mkConfig "broker.local" 1883 "user" "secret" "pico1" "sensors/pico1" "picoW" "1.4"
           3 true 3.

Lemma sensor_failure_ends_run_witness :
  sensor_result flaky_sensor_env 1 = inl (OSError 5) /\
  exists pre : list event,
    new_events boot_world
      (snd (main sensor_config flaky_sensor_env 900 "28cdc1aabbcc" "192.168.1.23" 3
                 boot_world))
    = pre ++ [EvSensorRead; EvMqttDisconnect] ++ [EvReset] /\
    count is_reset pre = 0%nat /\
    fst (main sensor_config flaky_sensor_env 900 "28cdc1aabbcc" "192.168.1.23" 3 boot_world)
    = Halt.
Proof.
  split; [reflexivity|].
  assert (Hreach : n_sensor
                     (snd (main sensor_config flaky_sensor_env 900 "28cdc1aabbcc"
                                "192.168.1.23" 3 boot_world)) = 2%nat)
    by (vm_compute; reflexivity).
  destruct (sensor_failure_ends_run sensor_config flaky_sensor_env 900 "28cdc1aabbcc"
              "192.168.1.23" 3 boot_world 1 (OSError 5)
              eq_refl eq_refl eq_refl eq_refl (Nat.le_0_l 1)) as [_ H].
  exact (H Hreach).
Defined.

(** X8.  An exception that escapes [watchdog_task] (any class but [OSError]),
    on whichever tick of whichever wait cycle, ends the run on that tick
    without a feed: the calls of that tick are followed at once by
    [disconnect()] and then by [machine.reset()], unless [disconnect()]
    raises, and no reset was requested before. *)
Theorem escaping_probe_ends_run
        (config : Config) (env : Env) (boot_time : Z) (mac_address ip_address : string)
        (fuel : nat) (w : World) (k : nat) (e : exn) :
  connect_result env = None ->
  (SENSOR_IN_USE config = true -> sensor_init_result env = None) ->
  probe_escape (probe_result env k) = Some e ->
  (n_probe w <= k)%nat ->
  let r := main config env boot_time mac_address ip_address fuel w in
  let tick := tick_events config (probe_result env k) in
  (n_probe (snd r) <= S k)%nat /\
  (n_probe (snd r) = S k ->
   exists pre : list event,
     new_events w (snd r)
     = pre ++ tick ++ [EvMqttDisconnect]
           ++ match disconnect_result env with None => [EvReset] | Some _ => [] end /\
     count is_feed tick = 0%nat /\
     count is_sleep tick = 1%nat /\
     count is_reset pre = 0%nat /\
     fst r = match disconnect_result env with None => Halt | Some e' => Raise e' end).
Proof.
  intros Hc Hi He Hk. cbn zeta.
  rewrite (main_after_boot config env boot_time mac_address ip_address fuel w Hc Hi).
  destruct (main_loop_stops_at_escaping_probe config env boot_time mac_address ip_address
              fuel (booted config w) k e He Hk) as (l & Hl1 & Hl2 & Hl3 & Hl4).
  destruct (main_loop config env boot_time mac_address ip_address fuel (booted config w))
    as [r1 w1] eqn:Hrun.
  cbn [fst snd] in *.
  assert (Hboot : trace w1 = trace w ++ boot_events config ++ l).
  { rewrite Hl1. unfold booted, boot_events. cbn [trace]. rewrite <- !app_assoc.
    reflexivity. }
  assert (Hns : n_probe (snd (unwind env (r1, w1))) = n_probe w1).
  { unfold unwind. destruct r1; destruct (disconnect_result env); reflexivity. }
  rewrite Hns. split; [exact Hl3|].
  intros Hreach. destruct (Hl4 Hreach) as [Hx (l0 & Hl0)]. subst r1 l.
  exists (boot_events config ++ l0).
  rewrite count_app in Hl2.
  split; [|split; [|split; [|split]]].
  - unfold unwind. destruct (disconnect_result env);
      apply new_events_app; unfold emit; cbn [trace]; rewrite Hboot, <- !app_assoc;
      reflexivity.
  - rewrite tick_events_feed.
    destruct (probe_result env k); [discriminate He | reflexivity].
  - apply tick_events_sleep.
  - rewrite count_app, count_boot_events by reflexivity. cbn [is_reset]. lia.
  - unfold unwind. destruct (disconnect_result env); reflexivity.
Qed.

(** The fifth probe (second wait cycle, second tick) runs out of memory in
    [socket.socket()]. *)
Definition late_oom_env : Env :=
  with_probes (fun k => match k with
                        | 4%nat => ProbeFails AtSocket MemoryError
                        | _ => ProbeCompleted
                        end) calm_env.

Lemma escaping_probe_ends_run_witness :
  probe_escape (probe_result late_oom_env 4) = Some MemoryError /\
  exists pre : list event,
    new_events boot_world
      (snd (main demo_config late_oom_env 900 "28cdc1aabbcc" "192.168.1.23" 3 boot_world))
    = pre ++ tick_events demo_config (probe_result late_oom_env 4)
          ++ [EvMqttDisconnect] ++ [EvReset] /\
    count is_feed (tick_events demo_config (probe_result late_oom_env 4)) = 0%nat /\
    count is_sleep (tick_events demo_config (probe_result late_oom_env 4)) = 1%nat /\
    count is_reset pre = 0%nat /\
    fst (main demo_config late_oom_env 900 "28cdc1aabbcc" "192.168.1.23" 3 boot_world) = Halt.
Proof.
  split; [reflexivity|].
  assert (Hreach : n_probe
                     (snd (main demo_config late_oom_env 900 "28cdc1aabbcc"
                                "192.168.1.23" 3 boot_world)) = 5%nat)
    by (vm_compute; reflexivity).
  destruct (escaping_probe_ends_run demo_config late_oom_env 900 "28cdc1aabbcc"
              "192.168.1.23" 3 boot_world 4 MemoryError
              eq_refl (fun _ => eq_refl) eq_refl (Nat.le_0_l 4)) as [_ H].
  exact (H Hreach).
Defined.

(** ** Reading the published lines back *)

Local Open Scope string_scope.

Definition quote_char : ascii := ascii_of_nat 34.

(** Modelled from the spec: the reader of a string value of the line format,
    which the repository only writes.  The value must open with a double
    quote; it runs to the next double quote. *)
Definition read_quoted (s : string) : option (string * string) :=
  match s with
  | String c r => if Ascii.eqb c quote_char then split_at quote_char r else None
  | EmptyString => None
  end.

(** Modelled from the spec: the reader of a telemetry field set, giving the
    uptime, the tenths of the internal temperature, the MAC address and the
    IP address.  String values must be quoted, the number must have exactly
    one fractional digit, and nothing may follow the last value. *)
Definition parse_telemetry_fields (s : string) : option (string * Z * string * string) :=
  match strip_prefix "uptime=" s with
  | None => None
  | Some r1 =>
  match read_quoted r1 with
  | None => None
  | Some (uptime, r2) =>
  match strip_prefix ",internal_temperature=" r2 with
  | None => None
  | Some r3 =>
  match split_at "," r3 with
  | None => None
  | Some (number, r4) =>
  match parse_decimal1 number with
  | None => None
  | Some internal =>
  match strip_prefix "MAC_address=" r4 with
  | None => None
  | Some r5 =>
  match read_quoted r5 with
  | None => None
  | Some (mac, r6) =>
  match strip_prefix ",IP_address=" r6 with
  | None => None
  | Some r7 =>
  match read_quoted r7 with
  | Some (ip, EmptyString) => Some (uptime, internal, mac, ip)
  | _ => None
  end end end end end end end end end.

(** Modelled from the spec: the reader of a telemetry line of this device:
    category, identity tags and a space, then the field set. *)
Definition parse_telemetry (config : Config) (line : string)
  : option (string * Z * string * string) :=
  match strip_prefix (message_header config "telemetry" ++ " ") line with
  | Some fields => parse_telemetry_fields fields
  | None => None
  end.

(** [z] tenths is [x] at one-decimal precision: the integer nearest to
    [10 x], the even one of the two when [10 x] lies half way. *)
Definition nearest_tenth (z : Z) (x : Q) : Prop :=
  (x * (10 # 1) - (1 # 2) <= inject_Z z)%Q /\
  (inject_Z z <= x * (10 # 1) + (1 # 2))%Q /\
  ((inject_Z z - x * (10 # 1) == 1 # 2)%Q \/ (x * (10 # 1) - inject_Z z == 1 # 2)%Q ->
   Z.even z = true).

Lemma tenths_nearest (x : Q) : nearest_tenth (tenths x) x.
Proof.
  unfold nearest_tenth, tenths.
  destruct (round_half_even_spec (x * (10 # 1))) as [Hb He]. cbn zeta in Hb, He.
  set (q := (x * (10 # 1))%Q) in *. set (z := round_half_even q) in *.
  destruct q as [n d]. cbn [Qnum Qden] in *.
  unfold Qle, Qeq, Qminus, Qplus, Qopp, inject_Z. cbn [Qnum Qden].
  split; [nia|]. split; [nia|].
  intros [H|H]; apply He; [left | right]; nia.
Qed.

Lemma dquote_app (s : string) : dquote ++ s = String quote_char s.
Proof. reflexivity. Qed.

Lemma read_quoted_app (s r : string) :
  lacks quote_char s = true -> read_quoted (dquote ++ s ++ dquote ++ r) = Some (s, r).
Proof.
  intros H. rewrite !dquote_app. unfold read_quoted.
  rewrite Ascii.eqb_refl. apply split_at_app. exact H.
Qed.

Lemma str_dec1_lacks (c : ascii) (d : dec1) :
  is_number_char c = false -> lacks c (str_dec1 d) = true.
Proof. intros Hc. apply number_chars_lack; [exact Hc | apply str_dec1_chars]. Qed.

(** A telemetry line reads back as the values it was built from. *)
Lemma parse_telemetry_format
      (config : Config) (mac_address ip_address uptime : string) (internal : dec1) :
  lacks quote_char uptime = true ->
  lacks quote_char mac_address = true ->
  lacks quote_char ip_address = true ->
  parse_telemetry config
    (format_message config "telemetry"
       (telemetry_fields mac_address ip_address uptime internal))
  = Some (uptime, dec1_tenths internal, mac_address, ip_address).
Proof.
  intros Hu Hm Hi. unfold parse_telemetry.
  rewrite format_message_header.
  change (String " " (telemetry_fields mac_address ip_address uptime internal))
    with (" " ++ telemetry_fields mac_address ip_address uptime internal).
  rewrite <- string_app_assoc, strip_prefix_app.
  unfold parse_telemetry_fields, telemetry_fields.
  rewrite strip_prefix_app. cbv beta iota.
  rewrite (read_quoted_app uptime _ Hu). cbv beta iota.
  rewrite strip_prefix_app. cbv beta iota.
  change (str_dec1 internal ++ ",MAC_address=" ++ dquote ++ mac_address ++ dquote
            ++ ",IP_address=" ++ dquote ++ ip_address ++ dquote)
    with (str_dec1 internal ++ String "," ("MAC_address=" ++ dquote ++ mac_address ++ dquote
            ++ ",IP_address=" ++ dquote ++ ip_address ++ dquote)).
  rewrite split_at_app by (apply str_dec1_lacks; reflexivity). cbv beta iota.
  rewrite parse_str_dec1. cbv beta iota.
  rewrite strip_prefix_app. cbv beta iota.
  rewrite (read_quoted_app mac_address _ Hm). cbv beta iota.
  rewrite strip_prefix_app. cbv beta iota.
  change (dquote ++ ip_address ++ dquote)
    with (dquote ++ ip_address ++ dquote ++ EmptyString).
  rewrite (read_quoted_app ip_address _ Hi). reflexivity.
Qed.

Lemma CalcUptime_lacks_quote (boot_time t : Z) :
  lacks quote_char (CalcUptime boot_time t) = true.
Proof.
  unfold lacks. apply (all_chars_weaken uptime_char).
  - intros c Hc. apply negb_true_iff, Ascii.eqb_neq. intros ->. discriminate Hc.
  - unfold CalcUptime. rewrite !all_chars_app, str_int_chars, !fmt_02d_chars. reflexivity.
Qed.

Lemma split_at_sound (c : ascii) (s x y : string) :
  split_at c s = Some (x, y) -> s = x ++ String c y.
Proof.
  revert x. induction s as [|a s IH]; intros x H; cbn in H; [discriminate|].
  destruct (Ascii.eqb_spec a c) as [->|Hne].
  - injection H as <- <-. reflexivity.
  - destruct (split_at c s) as [[x' y']|]; [|discriminate].
    injection H as <- <-. cbn. rewrite (IH x' eq_refl). reflexivity.
Qed.

(** The reader of numbers accepts nothing but a number with exactly one
    fractional digit. *)
Lemma parse_decimal1_shape (s : string) (z : Z) :
  parse_decimal1 s = Some z -> one_fraction_digit s.
Proof.
  unfold parse_decimal1.
  destruct (split_sign s) as [neg body] eqn:Hsign.
  destruct (split_at "." body) as [[whole frac]|] eqn:Hsplit; [|discriminate].
  destruct frac as [|d [|]]; try discriminate.
  destruct (NilZero.uint_of_string whole) as [u|] eqn:Hu; [|discriminate].
  destruct (digit_value d) as [v|] eqn:Hd; [|discriminate].
  intros _.
  apply split_at_sound in Hsplit.
  pose proof (NilZero.sus _ _ Hu) as Hwhole.
  exists (if neg then "-" else EmptyString), whole, d.
  split; [|split; [|split; [|split]]].
  - unfold split_sign in Hsign. destruct s as [|c r].
    + injection Hsign as <- <-. exact Hsplit.
    + destruct (Ascii.eqb_spec c "-") as [->|Hne]; injection Hsign as <- <-.
      * cbn. rewrite Hsplit. reflexivity.
      * exact Hsplit.
  - destruct neg; auto.
  - destruct whole; [discriminate Hu | discriminate].
  - rewrite <- Hwhole. apply nilzero_uint_digits.
  - unfold digit_value in Hd. unfold is_digit.
    destruct (uint_of_char d (Some Decimal.Nil)); [reflexivity | discriminate].
Qed.

(** C7.  Every message [mqtt_publish] sends is the category, the three
    identity tags and a space, followed by the field set.  A reader that
    insists on double quotes around string values and on exactly one
    fractional digit in numbers reads a telemetry line back as the uptime,
    the internal temperature, the MAC address and the IP address it was built
    from, and a measurement line as the temperature and the humidity at
    one-decimal precision: the nearest tenth of each value.  The uptime the
    script writes holds no double quote, and the internal temperature it
    writes is the nearest tenth of the converted ADC reading. *)
Theorem C7_lines_read_back
        (config : Config) (env : Env) (w : World) (topic category fields : string)
        (mac_address ip_address uptime : string) (internal : dec1) (temp_C humidity : Q) :
  lacks quote_char uptime = true ->
  lacks quote_char mac_address = true ->
  lacks quote_char ip_address = true ->
  published (new_events w (snd (mqtt_publish config env topic category fields w)))
  = [(category ++ ",deviceId=" ++ MQTT_CLIENT_ID config
               ++ ",deviceType=" ++ DEVICE_TYPE config
               ++ ",deviceVersion=" ++ VERSION config ++ " " ++ fields)%string]%list /\
  parse_telemetry config
    (format_message config "telemetry"
       (telemetry_fields mac_address ip_address uptime internal))
  = Some (uptime, dec1_tenths internal, mac_address, ip_address) /\
  (exists a b : Z,
     parse_measurement
       (format_message config "measurement" (measurement_fields temp_C humidity))
     = Some (a, b) /\
     nearest_tenth a temp_C /\ nearest_tenth b humidity) /\
  (forall s z, parse_decimal1 s = Some z -> one_fraction_digit s) /\
  (forall boot_time t, lacks quote_char (CalcUptime boot_time t) = true) /\
  (forall adc_value,
     nearest_tenth (dec1_tenths (internal_temperature adc_value))
                   (raw_temperature adc_value)).
Proof.
  intros Hu Hm Hi.
  split.
  { rewrite mqtt_publish_run. cbn [snd].
    rewrite (new_events_app w _ [EvMqttPublish (MQTT_PUBLISH_TOPIC config)
                                   (format_message config category fields)]%list)
      by reflexivity.
    reflexivity. }
  split; [apply parse_telemetry_format; assumption|].
  split.
  { exists (tenths temp_C), (tenths humidity).
    split; [apply parse_measurement_format|].
    split; apply tenths_nearest. }
  split; [exact parse_decimal1_shape|].
  split; [exact CalcUptime_lacks_quote|].
  intros adc_value.
  replace (dec1_tenths (internal_temperature adc_value))
    with (tenths (raw_temperature adc_value)).
  - apply tenths_nearest.
  - unfold dec1_tenths, internal_temperature. rewrite round1_value. reflexivity.
Qed.

Lemma C7_lines_read_back_witness :
  lacks quote_char "0:00:01:40" = true /\
  parse_telemetry demo_config
    (format_message demo_config "telemetry"
       (telemetry_fields "28cdc1aabbcc" "192.168.1.23" "0:00:01:40"
                         (internal_temperature 14000)))
  = Some ("0:00:01:40", 276%Z, "28cdc1aabbcc", "192.168.1.23") /\
  exists a b : Z,
    parse_measurement
      (format_message demo_config "measurement" (measurement_fields (2245 # 100) (613 # 10)))
    = Some (a, b) /\
    nearest_tenth a (2245 # 100) /\ nearest_tenth b (613 # 10).
Proof.
  split; [reflexivity|].
  destruct (C7_lines_read_back demo_config calm_env boot_world "sensors/pico1" "telemetry"
              "x=1" "28cdc1aabbcc" "192.168.1.23" "0:00:01:40"
              (internal_temperature 14000) (2245 # 100) (613 # 10)
              eq_refl eq_refl eq_refl) as (_ & Htel & Hmeas & _).
  split; [exact Htel | exact Hmeas].
Defined.
